(** * Shallow embedding of the structure check and merge of fiqto/mjson
    (src/src/lib/json-utils.ts, src/src/types/json.ts). *)

From Stdlib Require Import String Ascii List ZArith Bool Permutation Sorted Lia.
Import ListNotations.
Local Open Scope string_scope.
Set Warnings "-register-all".

(** ** Parsed JSON values

    What [JSON.parse] gives, plus [undefined].  Numbers are only carried
    around, never computed with, so they are kept as integers.  Objects are
    association lists in own-key order; a parsed object has no duplicate
    keys. *)
Inductive jv : Type :=
| JUndef : jv
| JNull : jv
| JBool : bool -> jv
| JNum : Z -> jv
| JStr : string -> jv
| JArr : list jv -> jv
| JObj : list (string * jv) -> jv.

(** Induction on parsed values with the hypothesis for every element of an
    array and every property value of an object. *)
Section JvInd.
Variable P : jv -> Prop.
Hypothesis HUndef : P JUndef.
Hypothesis HNull : P JNull.
Hypothesis HBool : forall b, P (JBool b).
Hypothesis HNum : forall n, P (JNum n).
Hypothesis HStr : forall s, P (JStr s).
Hypothesis HArr : forall l, Forall P l -> P (JArr l).
Hypothesis HObj : forall kvs, Forall (fun p => P (snd p)) kvs -> P (JObj kvs).

Fixpoint jv_ind' (v : jv) : P v :=
  match v with
  | JUndef => HUndef
  | JNull => HNull
  | JBool b => HBool b
  | JNum n => HNum n
  | JStr s => HStr s
  | JArr l =>
      HArr l ((fix go (l : list jv) : Forall P l :=
                 match l with
                 | [] => @Forall_nil _ P
                 | x :: r => @Forall_cons _ P x r (jv_ind' x) (go r)
                 end) l)
  | JObj kvs =>
      HObj kvs ((fix go (l : list (string * jv)) : Forall (fun p => P (snd p)) l :=
                   match l with
                   | [] => @Forall_nil _ _
                   | (k, x) :: r => @Forall_cons _ (fun p => P (snd p)) (k, x) r (jv_ind' x) (go r)
                   end) kvs)
  end.
End JvInd.

(** [obj[key]] for an own property of a parsed object, [undefined] when
    absent. *)
Fixpoint obj_get (k : string) (props : list (string * jv)) : jv :=
  match props with
  | [] => JUndef
  | (k', v) :: rest => if String.eqb k k' then v else obj_get k rest
  end.

(** An array index: the canonical decimal form of an integer below
    2^32 - 1 ("0", or digits without a leading zero). *)
Fixpoint digits_value (s : string) (acc : Z) : option Z :=
  match s with
  | EmptyString => Some acc
  | String c r =>
      let n := Z.of_nat (nat_of_ascii c) in
      if (48 <=? n)%Z && (n <=? 57)%Z then digits_value r (acc * 10 + (n - 48))%Z else None
  end.

Definition array_index (k : string) : option Z :=
  match k with
  | EmptyString => None
  | String c r =>
      if (nat_of_ascii c =? 48)%nat && negb (String.eqb r "") then None
      else match digits_value k 0 with
           | Some n => if (n <? 4294967295)%Z then Some n else None
           | None => None
           end
  end.

(** Creating an own property: array-index keys come first, in ascending
    numeric order, then the other keys in creation order. *)
Fixpoint insert_prop {A : Type} (k : string) (v : A) (props : list (string * A))
  : list (string * A) :=
  match props with
  | [] => [(k, v)]
  | (k', v') :: rest =>
      match array_index k, array_index k' with
      | Some i, Some j => if (i <? j)%Z then (k, v) :: props else (k', v') :: insert_prop k v rest
      | Some _, None => (k, v) :: props
      | None, _ => (k', v') :: insert_prop k v rest
      end
  end.

(** Overwriting an existing own property in place. *)
Fixpoint replace_prop {A : Type} (k : string) (v : A) (props : list (string * A))
  : list (string * A) :=
  match props with
  | [] => []
  | (k', v') :: rest => if String.eqb k k' then (k', v) :: rest else (k', v') :: replace_prop k v rest
  end.

Definition has_own {A : Type} (k : string) (props : list (string * A)) : bool :=
  existsb (fun p => String.eqb k (fst p)) props.

(** [obj[key] = v] on the own data properties of an object. *)
Definition obj_set {A : Type} (k : string) (v : A) (props : list (string * A))
  : list (string * A) :=
  if has_own k props then replace_prop k v props else insert_prop k v props.

(** [Array.isArray] *)
Definition isArray (v : jv) : bool :=
  match v with JArr _ => true | _ => false end.

(** [typeof] (note [typeof null === 'object']). *)
Definition typeof (v : jv) : string :=
  match v with
  | JUndef => "undefined"
  | JNull => "object"
  | JBool _ => "boolean"
  | JNum _ => "number"
  | JStr _ => "string"
  | JArr _ => "object"
  | JObj _ => "object"
  end.

(** The double-quote character and [JSON.stringify] of a string without
    characters needing escapes. *)
Definition dq : string := String (ascii_of_nat 34) EmptyString.
Definition quote (s : string) : string := String.append dq (String.append s dq).
Definition sapp (a b : string) : string := String.append a b.

(** JSON.stringify(['a', 'b']) *)
Definition stringify_pair (a b : string) : string :=
  sapp "[" (sapp (quote a) (sapp "," (sapp (quote b) "]"))).

(** ** Merging parsed values without prototype effects

    [merge_plain] is what [deepMerge] computes on parsed values when no key
    of the source, at any depth, names a property of [Object.prototype]
    (lemma [deepMerge_of_jv] below): a missing key reads as [undefined] and
    every assignment creates or overwrites an own property. *)

Section ForIn.
Variable merge : jv -> jv -> jv.
Variable target : list (string * jv).

Fixpoint merge_props (res l : list (string * jv)) : list (string * jv) :=
  match l with
  | [] => res
  | (key, v) :: l' => merge_props (obj_set key (merge (obj_get key target) v) res) l'
  end.
End ForIn.

Fixpoint merge_plain (target source : jv) {struct source} : jv :=
  match source with
  | JUndef | JNull => target
  | _ =>
    match target with
    | JUndef | JNull => source
    | JArr t =>
        match source with
        | JArr s => JArr (t ++ s)
        | _ => source
        end
    | JObj t =>
        match source with
        | JObj s => JObj (merge_props merge_plain t t s)
        | _ => source
        end
    | _ => source
    end
  end.

(** ** deepMerge (json-utils.ts, lines 191-218)

    The values [deepMerge] works on.  Its [source] is always parsed JSON (a
    file's content or a property of one).  Its [target] is the seed, an
    earlier result, or whatever [target[key]] read, which may come from a
    prototype.  [VObj props proto] is an ordinary object: its own properties
    in own-key order and its [[Prototype]].  [VObjectPrototype] is
    [Object.prototype]; [VBuiltin name] is one of the built-in methods of
    [Object.prototype] or [Array.prototype]. *)
Inductive val : Type :=
| VUndef : val
| VNull : val
| VBool : bool -> val
| VNum : Z -> val
| VStr : string -> val
| VArr : list val -> val
| VObj : list (string * val) -> val -> val
| VObjectPrototype : val
| VBuiltin : string -> val.

(** The value [JSON.parse] builds: objects inherit from [Object.prototype]. *)
Fixpoint of_jv (v : jv) : val :=
  match v with
  | JUndef => VUndef
  | JNull => VNull
  | JBool b => VBool b
  | JNum n => VNum n
  | JStr s => VStr s
  | JArr l => VArr (map of_jv l)
  | JObj kvs => VObj (map (fun p => (fst p, of_jv (snd p))) kvs) VObjectPrototype
  end.

(** The string-keyed properties of [Object.prototype] (ECMAScript 2023,
    Annex B included): the methods, and the [__proto__] accessor. *)
Definition object_prototype_methods : list string :=
  ["constructor"; "__defineGetter__"; "__defineSetter__"; "hasOwnProperty";
   "__lookupGetter__"; "__lookupSetter__"; "isPrototypeOf"; "propertyIsEnumerable";
   "toString"; "valueOf"; "toLocaleString"].

(** The string-keyed methods of [Array.prototype] (ECMAScript 2023); its
    [length] is shadowed by every array's own [length]. *)
Definition array_prototype_methods : list string :=
  ["at"; "concat"; "constructor"; "copyWithin"; "entries"; "every"; "fill"; "filter";
   "find"; "findIndex"; "findLast"; "findLastIndex"; "flat"; "flatMap"; "forEach";
   "includes"; "indexOf"; "join"; "keys"; "lastIndexOf"; "map"; "pop"; "push"; "reduce";
   "reduceRight"; "reverse"; "shift"; "slice"; "some"; "sort"; "splice";
   "toLocaleString"; "toReversed"; "toSorted"; "toSpliced"; "toString"; "unshift";
   "values"; "with"].

Definition member (k : string) (l : list string) : bool := existsb (String.eqb k) l.

Fixpoint own_get {A : Type} (k : string) (props : list (string * A)) : option A :=
  match props with
  | [] => None
  | (k', v) :: rest => if String.eqb k k' then Some v else own_get k rest
  end.

(** Own properties of an array: its indices and [length]. *)
Definition array_own (l : list val) (k : string) : option val :=
  if String.eqb k "length" then Some (VNum (Z.of_nat (length l)))
  else match array_index k with
       | Some i => if (i <? Z.of_nat (length l))%Z then nth_error l (Z.to_nat i) else None
       | None => None
       end.

(** A property found on [Object.prototype]; the [__proto__] getter returns
    the prototype of the object the property is read on. *)
Definition object_prototype_get (receiver_proto : val) (k : string) : val :=
  if String.eqb k "__proto__" then receiver_proto
  else if member k object_prototype_methods then VBuiltin (sapp "Object.prototype." k)
  else VUndef.

(** [[Get]] along the prototype chain starting at [o]. *)
Fixpoint chain_get (receiver_proto o : val) (k : string) : val :=
  match o with
  | VObj props p =>
      match own_get k props with
      | Some v => v
      | None => chain_get receiver_proto p k
      end
  | VArr l =>
      match array_own l k with
      | Some v => v
      | None =>
          if member k array_prototype_methods then VBuiltin (sapp "Array.prototype." k)
          else object_prototype_get receiver_proto k
      end
  | VObjectPrototype => object_prototype_get receiver_proto k
  | _ => VUndef
  end.

(** [[GetPrototypeOf]] of the objects [target[key]] is read on: ordinary
    objects and [Object.prototype] (whose prototype is [null]). *)
Definition proto_of (o : val) : val :=
  match o with
  | VObj _ p => p
  | _ => VNull
  end.

(** [target[key]] *)
Definition js_get (o : val) (k : string) : val := chain_get (proto_of o) o k.

(** Whether an assignment of [__proto__] on an object with prototype [p]
    and no own [__proto__] reaches the setter of [Object.prototype]; a data
    property [__proto__] met first on the chain makes it an own property. *)
Fixpoint reaches_proto_setter (p : val) : bool :=
  match p with
  | VObj props p' =>
      match own_get "__proto__" props with
      | Some _ => false
      | None => reaches_proto_setter p'
      end
  | VArr _ | VObjectPrototype => true
  | _ => false
  end.

Definition is_object_or_null (v : val) : bool :=
  match v with
  | VUndef | VBool _ | VNum _ | VStr _ => false
  | _ => true
  end.

(** [result[key] = v] on the object under construction ([props], [proto]).
    The [__proto__] setter ignores values that are neither objects nor
    [null]; it cannot meet a cycle, since nothing [v] reaches refers to the
    fresh [result]. *)
Definition set_prop (result : list (string * val) * val) (k : string) (v : val)
  : list (string * val) * val :=
  let (props, proto) := result in
  match own_get k props with
  | Some _ => (obj_set k v props, proto)
  | None =>
      if String.eqb k "__proto__" && reaches_proto_setter proto
      then (props, if is_object_or_null v then v else proto)
      else (obj_set k v props, proto)
  end.

(** [{ ...target }]: the own enumerable properties (none on
    [Object.prototype]). *)
Definition spread (o : val) : list (string * val) :=
  match o with
  | VObj props _ => props
  | _ => []
  end.

(** The exception [deepMerge] can raise, and its message (V8's wording). *)
Inductive js_error : Type :=
| NotAFunction : string -> js_error.

Definition error_message (e : js_error) : string :=
  match e with NotAFunction callee => sapp callee " is not a function" end.

Inductive outcome (A : Type) : Type :=
| Ok : A -> outcome A
| Throw : js_error -> outcome A.
Arguments Ok {A} _.
Arguments Throw {A} _.

Section DeepMergeLoop.
Variable merge : val -> jv -> outcome val.
Variable target : val.
Variable source : list (string * jv).

(** The [for (const key in source)] loop (lines 208-212).  Parsed objects
    inherit nothing enumerable, so it visits the own keys in order.
    [source.hasOwnProperty] is an own property of [source] when it has the
    key ["hasOwnProperty"] (a JSON value, not callable: a [TypeError]),
    and [Object.prototype.hasOwnProperty] otherwise. *)
Fixpoint for_in (result : list (string * val) * val) (l : list (string * jv))
  : outcome (list (string * val) * val) :=
  match l with
  | [] => Ok result
  | (key, v) :: rest =>
      match own_get "hasOwnProperty" source with
      | Some _ => Throw (NotAFunction "source.hasOwnProperty")
      | None =>
          if has_own key source then
            match merge (js_get target key) v with
            | Ok mv => for_in (set_prop result key mv) rest
            | Throw e => Throw e
            end
          else for_in result rest
      end
  end.
End DeepMergeLoop.

Fixpoint deepMerge (target : val) (source : jv) {struct source} : outcome val :=
  match source with
  | JUndef | JNull => Ok target
  | _ =>
    match target with
    | VUndef | VNull => Ok (of_jv source)
    | _ =>
      match target, source with
      | VArr t, JArr s => Ok (VArr (t ++ map of_jv s))
      (* both of type 'object', neither an array (nor null, see above) *)
      | (VObj _ _ | VObjectPrototype), JObj s =>
          match for_in deepMerge target s (spread target, VObjectPrototype) s with
          | Ok (props, proto) => Ok (VObj props proto)
          | Throw e => Throw e
          end
      | _, _ => Ok (of_jv source)
      end
    end
  end.

(** [files.reduce((acc, file) => deepMerge(acc, file.content), seed)] on the
    contents. *)
Fixpoint fold_merge (acc : val) (contents : list jv) : outcome val :=
  match contents with
  | [] => Ok acc
  | c :: rest =>
      match deepMerge acc c with
      | Ok acc' => fold_merge acc' rest
      | Throw e => Throw e
      end
  end.

(** ** Files and results (src/src/types/json.ts) *)

Record JsonFile : Type := mkFile {
  id : string;
  name : string;
  content : jv;
  size : Z
}.

Record ValidationResult : Type := mkValidation {
  isValid : bool;
  error : option string
}.

Record MergeResult : Type := mkMerge {
  success : bool;
  data : option val;
  merge_error : option string
}.

(** ** generateCompatibleStructureHash (lines 144-152) *)
Definition generateCompatibleStructureHash (obj : jv) : string :=
  match obj with
  | JArr _ => stringify_pair "array" "flexible-object"
  | JObj _ => stringify_pair "object" "flexible-properties"
  | _ => quote (typeof obj)
  end.

(** ** validateStructureConsistency (lines 85-138) *)

Definition root_type_error (fi f0 : string) : string :=
  sapp "File " (sapp (quote fi) (sapp " has different root type than "
    (sapp (quote f0) " (array vs object)"))).

Definition array_struct_error (fi f0 : string) : string :=
  sapp "File " (sapp (quote fi) (sapp " has incompatible array element structure than "
    (quote f0))).

Definition object_struct_error (fi f0 : string) : string :=
  sapp "File " (sapp (quote fi) (sapp " has incompatible object structure than "
    (quote f0))).

(** First loop (lines 96-104) over files 1..n-1. *)
Fixpoint root_type_loop (isFirstArray : bool) (name0 : string)
    (files : list JsonFile) : option string :=
  match files with
  | [] => None
  | f :: rest =>
      if Bool.eqb isFirstArray (isArray (content f)) then root_type_loop isFirstArray name0 rest
      else Some (root_type_error (name f) name0)
  end.

(** [compatibleStructures] of the array branch (lines 108-111); [None] is
    the JavaScript [null]. *)
Definition array_structure (f : JsonFile) : option string :=
  match content f with
  | JArr [] => None
  | JArr (x :: _) => Some (generateCompatibleStructureHash x)
  | c => Some (generateCompatibleStructureHash c)
  end.

(** Second loop of the array branch (lines 114-121): [cs] pairs file i with
    [compatibleStructures[i]] for i >= 1. *)
Fixpoint array_loop (base : option string) (name0 : string)
    (cs : list (JsonFile * option string)) : option string :=
  match cs with
  | [] => None
  | (f, ci) :: rest =>
      match ci, base with
      | Some c, Some b =>
          if String.eqb c b then array_loop base name0 rest
          else Some (array_struct_error (name f) name0)
      | _, _ => array_loop base name0 rest
      end
  end.

(** Loop of the object branch (lines 127-134). *)
Fixpoint object_loop (base : string) (name0 : string)
    (cs : list (JsonFile * string)) : option string :=
  match cs with
  | [] => None
  | (f, ci) :: rest =>
      if String.eqb ci base then object_loop base name0 rest
      else Some (object_struct_error (name f) name0)
  end.

Definition invalid (msg : string) : ValidationResult := mkValidation false (Some msg).
Definition valid : ValidationResult := mkValidation true None.

Definition validateStructureConsistency (files : list JsonFile) : ValidationResult :=
  match files with
  | [] => invalid "No files to validate"
  | [_] => valid
  | f0 :: rest =>
      let isFirstArray := isArray (content f0) in
      match root_type_loop isFirstArray (name f0) rest with
      | Some msg => invalid msg
      | None =>
          if isFirstArray then
            let base := array_structure f0 in
            match array_loop base (name f0)
                    (map (fun f => (f, array_structure f)) rest) with
            | Some msg => invalid msg
            | None => valid
            end
          else
            let base := generateCompatibleStructureHash (content f0) in
            match object_loop base (name f0)
                    (map (fun f => (f, generateCompatibleStructureHash (content f))) rest) with
            | Some msg => invalid msg
            | None => valid
            end
      end
  end.

(** ** mergeJsonFiles (lines 160-186) *)
Definition mergeJsonFiles (files : list JsonFile) : MergeResult :=
  match files with
  | [] => mkMerge false None (Some "No files to merge")
  | f0 :: _ =>
      let structureValidation := validateStructureConsistency files in
      if negb (isValid structureValidation) then
        mkMerge false None (error structureValidation)
      else
        let isArrayType := isArray (content f0) in
        match fold_merge (if isArrayType then VArr [] else VObj [] VObjectPrototype)
                (map content files) with
        | Ok merged => mkMerge true (Some merged) None
        | Throw e => mkMerge false None (Some (error_message e))
        end
  end.

(** [JSON.parse(JSON.stringify(v))]: object properties whose value is
    [undefined] or a function are dropped, such array elements become
    [null]; only own properties are written.  (No value here has a callable
    [toJSON].) *)
Fixpoint json_view (v : val) : jv :=
  match v with
  | VUndef => JUndef
  | VNull => JNull
  | VBool b => JBool b
  | VNum n => JNum n
  | VStr s => JStr s
  | VArr l => JArr (map (fun x => match x with VUndef | VBuiltin _ => JNull | _ => json_view x end) l)
  | VObj props _ =>
      JObj ((fix go (l : list (string * val)) : list (string * jv) :=
               match l with
               | [] => []
               | (k, x) :: r =>
                   match x with
                   | VUndef | VBuiltin _ => go r
                   | _ => (k, json_view x) :: go r
                   end
               end) props)
  | VObjectPrototype => JObj []
  | VBuiltin _ => JUndef
  end.

(** Own keys of an object, in order. *)
Definition keys (kvs : list (string * jv)) : list string := map fst kvs.

Definition key_in (k : string) (kvs : list (string * jv)) : bool :=
  existsb (String.eqb k) (keys kvs).

(** Keys of a file's root object ([[]] for an array root). *)
Definition file_keys (f : JsonFile) : list string :=
  match content f with JObj kvs => keys kvs | _ => [] end.

(** The values that the files holding key [k] give it, in file order. *)
Definition key_values (k : string) (files : list JsonFile) : list jv :=
  flat_map (fun f => match content f with
                     | JObj kvs => if key_in k kvs then [obj_get k kvs] else []
                     | _ => []
                     end) files.

(** A root object file with no duplicate own keys (as [JSON.parse] builds). *)
Definition object_file (f : JsonFile) : Prop :=
  exists kvs, content f = JObj kvs /\ NoDup (keys kvs).

(** [null] read as a missing value: [deepMerge(undefined, v)]. *)
Definition null_to_undefined (v : jv) : jv :=
  match v with JNull => JUndef | _ => v end.

(** The root of a single file after [mergeJsonFiles]: top-level [null]
    properties of an object root become [undefined]. *)
Definition single_merge_view (v : jv) : jv :=
  match v with
  | JObj kvs => JObj (map (fun kv => (fst kv, null_to_undefined (snd kv))) kvs)
  | _ => v
  end.

(** Elements of an array root, [[]] for anything else. *)
Definition array_elems (v : jv) : list jv :=
  match v with JArr l => l | _ => [] end.

(** [obj[key]] on an object built by [deepMerge] for a key that names no
    property of [Object.prototype]: the own value, or [undefined]. *)
Definition own_value (k : string) (props : list (string * val)) : val :=
  match own_get k props with Some v => v | None => VUndef end.

(** Keys that name a property of [Object.prototype]. *)
Definition proto_key (k : string) : bool :=
  String.eqb k "__proto__" || member k object_prototype_methods.

(** No key at any depth names a property of [Object.prototype]. *)
Fixpoint plain_keys (v : jv) : bool :=
  match v with
  | JArr l => forallb plain_keys l
  | JObj kvs => forallb (fun p => negb (proto_key (fst p)) && plain_keys (snd p)) kvs
  | _ => true
  end.

(** Key [a] may come before key [b] in own-key order. *)
Definition key_before (a b : string) : bool :=
  match array_index a, array_index b with
  | Some i, Some j => (i <=? j)%Z
  | Some _, None => true
  | None, Some _ => false
  | None, None => true
  end.

(** Keys in own-key order, as [JSON.parse] creates them. *)
Fixpoint js_ordered (ks : list string) : bool :=
  match ks with
  | [] => true
  | k :: rest => forallb (key_before k) rest && js_ordered rest
  end.

(** The loop of [deepMerge] over the properties [l] of the source when the
    target is an ordinary object with own properties [tp] that inherits from
    [Object.prototype], and no key of the source names a property of
    [Object.prototype] (lemma [for_in_plain]). *)
Fixpoint props_loop (merge : val -> jv -> outcome val) (tp res : list (string * val))
    (l : list (string * jv)) : outcome (list (string * val)) :=
  match l with
  | [] => Ok res
  | (k, v) :: rest =>
      match merge (own_value k tp) v with
      | Ok mv => props_loop merge tp (obj_set k mv res) rest
      | Throw e => Throw e
      end
  end.

(** ** generateStructureHash (json-utils.ts, lines 37-79)

    The intermediate structures are JavaScript arrays of strings and arrays. *)
Inductive st : Type :=
| SStr : string -> st
| SArr : list st -> st.

(** [Object.keys(value).sort()]: the default sort compares strings by code
    units (here: by bytes, [String.compare]); insertion sort on the key. *)
Fixpoint insert_by_key {A : Type} (p : string * A) (l : list (string * A)) : list (string * A) :=
  match l with
  | [] => [p]
  | q :: r =>
      match String.compare (fst p) (fst q) with
      | Gt => q :: insert_by_key p r
      | _ => p :: q :: r
      end
  end.

Definition sort_by_key {A : Type} (l : list (string * A)) : list (string * A) :=
  fold_right insert_by_key [] l.

(** The order the sort produces: strictly increasing keys. *)
Definition key_lt {A : Type} (p q : string * A) : Prop := String.compare (fst p) (fst q) = Lt.

(** [getStructure].  The object case maps each sorted key [k] to
    [[k, getStructure(value[k])]]; the structures are computed per property
    and then sorted by key, which is the same for an object's distinct own
    keys. *)
Fixpoint getStructure (v : jv) : st :=
  match v with
  | JNull => SStr "nullable"
  | JArr l => SArr [SStr "array"; match l with [] => SStr "empty" | x :: _ => getStructure x end]
  | JObj kvs =>
      SArr [SStr "object";
            SArr (map (fun p => SArr [SStr (fst p); snd p])
                    (sort_by_key ((fix go (l : list (string * jv)) : list (string * st) :=
                                     match l with
                                     | [] => []
                                     | (k, x) :: r => (k, getStructure x) :: go r
                                     end) kvs)))]
  | _ => SStr (typeof v)
  end.

(** The per-property step of [normalizeStructure]'s object case
    (lines 55-67), given the already normalized value structure. *)
Definition normalize_field (key normalized : st) : st :=
  match normalized with
  | SStr "nullable" => SArr [key; SStr "nullable-field"]
  | SArr (SStr "object" :: _) => SArr [key; SStr "nullable-field"]
  | SStr "string" | SStr "number" | SStr "boolean" => SArr [key; SStr "nullable-field"]
  | _ => SArr [key; normalized]
  end.

Fixpoint normalizeStructure (s : st) : st :=
  match s with
  | SArr (SStr "object" :: SArr props :: _) =>
      SArr [SStr "object";
            SArr ((fix go (l : list st) : list st :=
                     match l with
                     | [] => []
                     | SArr (key :: vs :: _) :: r => normalize_field key (normalizeStructure vs) :: go r
                     | x :: r => x :: go r
                     end) props)]
  | SArr (SStr "array" :: x :: _) => SArr [SStr "array"; normalizeStructure x]
  | _ => s
  end.

(** [JSON.stringify] of a string: surrounding double quotes; the double
    quote and the backslash are escaped with a backslash, control characters
    with the short escapes (b, f, n, r, t) or as u00XX. *)
Definition bs : string := String (ascii_of_nat 92) EmptyString.

Definition hex_digit (n : nat) : string :=
  String (ascii_of_nat (if (n <? 10)%nat then 48 + n else 87 + n)) EmptyString.

Definition escape_char (c : ascii) : string :=
  let n := nat_of_ascii c in
  if (n =? 34)%nat then sapp bs dq
  else if (n =? 92)%nat then sapp bs bs
  else if (n =? 8)%nat then sapp bs "b"
  else if (n =? 12)%nat then sapp bs "f"
  else if (n =? 10)%nat then sapp bs "n"
  else if (n =? 13)%nat then sapp bs "r"
  else if (n =? 9)%nat then sapp bs "t"
  else if (n <? 32)%nat then sapp bs (sapp "u00" (sapp (hex_digit (n / 16)) (hex_digit (n mod 16))))
  else String c EmptyString.

Fixpoint escape_string (s : string) : string :=
  match s with
  | EmptyString => EmptyString
  | String c r => sapp (escape_char c) (escape_string r)
  end.

Definition json_quote (s : string) : string := sapp dq (sapp (escape_string s) dq).

Fixpoint st_stringify (s : st) : string :=
  match s with
  | SStr x => json_quote x
  | SArr l =>
      sapp "[" (sapp ((fix go (l : list st) : string :=
                         match l with
                         | [] => ""
                         | [x] => st_stringify x
                         | x :: r => sapp (st_stringify x) (sapp "," (go r))
                         end) l) "]")
  end.

Definition generateStructureHash (obj : jv) : string :=
  st_stringify (normalizeStructure (getStructure obj)).

(** ** validateJsonString (lines 10-31)

    [JSON.parse] is the platform's; its outcome is the input here. *)
Inductive parse_outcome : Type :=
| ParseOk : jv -> parse_outcome
| ParseError : string -> parse_outcome.

(** The [ValidationResult] and its [structureHash] field. *)
Definition validateJsonString (parsed : parse_outcome) : ValidationResult * option string :=
  match parsed with
  | ParseError msg => (mkValidation false (Some msg), None)
  | ParseOk v =>
      if negb (String.eqb (typeof v) "object") || match v with JNull => true | _ => false end
      then (invalid "JSON must be an object or array at root level", None)
      else (valid, Some (generateStructureHash v))
  end.

(** ** JsonUploader (src/unnamed/part_002, lines 22-92)

    [processFiles], [removeFile] and [clearAllFiles] on the list of uploaded
    files.  File names are ASCII strings. *)

(** [String.prototype.toLowerCase] on ASCII. *)
Definition ascii_lower (c : ascii) : ascii :=
  let n := nat_of_ascii c in
  if (65 <=? n)%nat && (n <=? 90)%nat then ascii_of_nat (n + 32) else c.

Fixpoint to_lower (s : string) : string :=
  match s with
  | EmptyString => EmptyString
  | String c r => String (ascii_lower c) (to_lower r)
  end.

(** [String.prototype.endsWith]. *)
Definition ends_with (s suffix : string) : bool :=
  (String.length suffix <=? String.length s)%nat &&
  String.eqb (substring (String.length s - String.length suffix) (String.length suffix) s) suffix.

(** What [await file.text()] gives: the text, here already run through
    [JSON.parse], or a rejection with an [Error] (its message) or with some
    other value ([None]). *)
Inductive read_outcome : Type :=
| ReadFail : option string -> read_outcome
| ReadOk : parse_outcome -> read_outcome.

(** A dropped [File]; [fstamp] is the [Date.now()-Math.random()] part of the
    id generated for it. *)
Record DroppedFile : Type := mkDropped {
  fname : string;
  fsize : Z;
  ftext : read_outcome;
  fstamp : string
}.

Record FileUploadError : Type := mkUploadError {
  fileName : string;
  upload_error : string
}.

(** [e || d] on an optional string. *)
Definition or_default (e : option string) (d : string) : string :=
  match e with
  | Some s => if String.eqb s "" then d else s
  | None => d
  end.

(** One iteration of the [for] loop (lines 28-64): a new file or an error. *)
Definition process_one (file : DroppedFile) : JsonFile + FileUploadError :=
  if negb (ends_with (to_lower (fname file)) ".json")
  then inr (mkUploadError (fname file) "File must have .json extension")
  else match ftext file with
       | ReadFail m =>
           inr (mkUploadError (fname file)
                  (match m with Some msg => msg | None => "Failed to process file" end))
       | ReadOk parsed =>
           let validation := fst (validateJsonString parsed) in
           if negb (isValid validation)
           then inr (mkUploadError (fname file) (or_default (error validation) "Invalid JSON format"))
           else match parsed with
                | ParseOk v =>
                    inl (mkFile (sapp (fname file) (sapp "-" (fstamp file))) (fname file) v (fsize file))
                | ParseError msg => inr (mkUploadError (fname file) msg)
                end
       end.

Fixpoint process_loop (files : list DroppedFile) (newJsonFiles : list JsonFile)
    (errors : list FileUploadError) : list JsonFile * list FileUploadError :=
  match files with
  | [] => (newJsonFiles, errors)
  | file :: rest =>
      match process_one file with
      | inl jf => process_loop rest (newJsonFiles ++ [jf]) errors
      | inr e => process_loop rest newJsonFiles (errors ++ [e])
      end
  end.

(** The new list of uploaded files (passed to [onFilesChange]) and the errors
    passed to [onError], if any. *)
Record UploaderUpdate : Type := mkUpdate {
  updatedFiles : list JsonFile;
  reportedErrors : option (list FileUploadError)
}.

Definition processFiles (uploadedFiles : list JsonFile) (files : list DroppedFile) : UploaderUpdate :=
  let '(newJsonFiles, errors) := process_loop files [] [] in
  mkUpdate (uploadedFiles ++ newJsonFiles)
           (if (0 <? length errors)%nat then Some errors else None).

Definition removeFile (uploadedFiles : list JsonFile) (fileId : string) : list JsonFile :=
  filter (fun file => negb (String.eqb (id file) fileId)) uploadedFiles.

Definition clearAllFiles (uploadedFiles : list JsonFile) : list JsonFile := [].

(** The files [process_one] accepts and the errors it reports, in drop
    order. *)
Definition accepted_files (files : list DroppedFile) : list JsonFile :=
  flat_map (fun f => match process_one f with inl jf => [jf] | inr _ => [] end) files.

Definition rejected_files (files : list DroppedFile) : list FileUploadError :=
  flat_map (fun f => match process_one f with inl _ => [] | inr e => [e] end) files.

(** The uploader's acceptance conditions on a file in the list. *)
Definition is_container (v : jv) : bool :=
  match v with
  | JArr _ | JObj _ => true
  | _ => false
  end.

Definition uploaded_ok (f : JsonFile) : bool :=
  ends_with (to_lower (name f)) ".json" && is_container (content f).

(** Property values whose structure [normalizeStructure] turns into
    [nullable-field]. *)
Definition collapses (v : jv) : bool :=
  match v with
  | JNull | JBool _ | JNum _ | JStr _ | JObj _ => true
  | _ => false
  end.

(** ** The JsonMerger component (src/unnamed/part_001, lines 17-51)

    [structureValidation], [mergeResult], the effect that reports to the
    parent ([onMergeResult]) and [handleMergeClick], as functions of the
    [files] prop.  [None] stands for "nothing computed / nothing reported". *)

Definition merger_structureValidation (files : list JsonFile) : ValidationResult :=
  match files with
  | [] => mkValidation false (Some "No files uploaded")
  | _ => validateStructureConsistency files
  end.

Definition merger_mergeResult (files : list JsonFile) : option MergeResult :=
  if negb (isValid (merger_structureValidation files)) || (length files =? 0)%nat
  then None
  else Some (mergeJsonFiles files).

(** [structureValidation.error || 'Cannot merge files'] ([""] is falsy). *)
Definition error_or_default (e : option string) : string :=
  match e with
  | Some s => if String.eqb s "" then "Cannot merge files" else s
  | None => "Cannot merge files"
  end.

Definition merger_reported (files : list JsonFile) : option MergeResult :=
  match merger_mergeResult files with
  | Some r => Some r
  | None =>
      if (0 <? length files)%nat && negb (isValid (merger_structureValidation files))
      then Some (mkMerge false None
                   (Some (error_or_default (error (merger_structureValidation files)))))
      else None
  end.

Definition merger_handleMergeClick (files : list JsonFile) : option MergeResult :=
  if isValid (merger_structureValidation files) && (0 <? length files)%nat
  then Some (mergeJsonFiles files)
  else None.

Definition file (n : string) (c : jv) : JsonFile := mkFile n n c 0.

Example t_concat :
  mergeJsonFiles [file "x" (JArr [JNum 1]); file "y" (JArr [JNum 2])]
  = mkMerge true (Some (VArr [VNum 1; VNum 2])) None.
Proof. reflexivity. Qed.

Example t_structure_hash :
  generateStructureHash (JObj [("b", JNum 1); ("a", JArr [JNull])])
  = sapp "[" (sapp (json_quote "object") (sapp ",[[" (sapp (json_quote "a")
      (sapp ",[" (sapp (json_quote "array") (sapp "," (sapp (json_quote "nullable")
      (sapp "]],[" (sapp (json_quote "b") (sapp "," (sapp (json_quote "nullable-field") "]]]"))))))))))).
Proof. reflexivity. Qed.

Example t_scen2 :
  mergeJsonFiles [file "x" (JObj [("a", JNum 1); ("b", JNum 2)]);
                  file "y" (JObj [("b", JNum 3); ("c", JNum 4)])]
  = mkMerge true (Some (VObj [("a", VNum 1); ("b", VNum 3); ("c", VNum 4)] VObjectPrototype)) None.
Proof. reflexivity. Qed.

Example t_hasOwnProperty_key :
  mergeJsonFiles [file "x" (JObj [("hasOwnProperty", JNum 1)])]
  = mkMerge false None (Some "source.hasOwnProperty is not a function").
Proof. reflexivity. Qed.

Example t_inherited_member :
  mergeJsonFiles [file "x" (JObj [("toString", JNull)])]
  = mkMerge true (Some (VObj [("toString", VBuiltin "Object.prototype.toString")] VObjectPrototype)) None.
Proof. reflexivity. Qed.

Example t_proto_key :
  mergeJsonFiles [file "x" (JObj [("__proto__", JObj [("p", JNum 1)]); ("a", JNum 2)]);
                  file "y" (JObj [("p", JNull)])]
  = mkMerge true (Some (VObj [("a", VNum 2); ("p", VNum 1)] VObjectPrototype)) None.
Proof. reflexivity. Qed.

Example t_index_keys_first :
  mergeJsonFiles [file "x" (JObj [("b", JNum 1)]); file "y" (JObj [("1", JNum 2)])]
  = mkMerge true (Some (VObj [("1", VNum 2); ("b", VNum 1)] VObjectPrototype)) None.
Proof. reflexivity. Qed.

(** ** Lemmas about the checker *)

Lemma root_type_loop_same (b : bool) (n0 : string) (fs : list JsonFile) :
  Forall (fun f => isArray (content f) = b) fs -> root_type_loop b n0 fs = None.
Proof.
  induction 1 as [|f fs Hf _ IH]; simpl; [reflexivity|].
  rewrite Hf, eqb_reflx. exact IH.
Qed.

Lemma root_type_loop_first (b : bool) (n0 : string) (pre : list JsonFile)
    (fi : JsonFile) (post : list JsonFile) :
  Forall (fun f => isArray (content f) = b) pre ->
  isArray (content fi) <> b ->
  root_type_loop b n0 (pre ++ fi :: post) = Some (root_type_error (name fi) n0).
Proof.
  intros Hpre Hfi. induction Hpre as [|f fs Hf _ IH]; simpl.
  - destruct (Bool.eqb b (isArray (content fi))) eqn:E; [|reflexivity].
    apply eqb_prop in E. congruence.
  - rewrite Hf, eqb_reflx. exact IH.
Qed.

Lemma object_loop_same (base n0 : string) (cs : list (JsonFile * string)) :
  Forall (fun p => snd p = base) cs -> object_loop base n0 cs = None.
Proof.
  induction 1 as [|[f c] cs Hc _ IH]; simpl in *; [reflexivity|].
  subst c. rewrite String.eqb_refl. exact IH.
Qed.

Lemma array_loop_no_base (n0 : string) (cs : list (JsonFile * option string)) :
  array_loop None n0 cs = None.
Proof.
  induction cs as [|[f [c|]] cs IH]; simpl; auto.
Qed.

Lemma fold_merge_arrays (contents : list jv) (acc : list val) :
  Forall (fun c => isArray c = true) contents ->
  fold_merge (VArr acc) contents = Ok (VArr (acc ++ map of_jv (flat_map array_elems contents))).
Proof.
  intros H. revert acc. induction H as [|c cs Hc _ IH]; intros acc; simpl.
  - rewrite app_nil_r. reflexivity.
  - destruct c as [| | | | |l|]; try discriminate Hc. simpl.
    rewrite IH, map_app, app_assoc. reflexivity.
Qed.

(** ** Claims about the checker and the error paths *)

(** C9: on the empty sequence, [mergeJsonFiles] fails, carries no data, and
    its reason says that there are no files to merge. *)
Theorem merge_empty_no_files :
  mergeJsonFiles [] = mkMerge false None (Some "No files to merge").
Proof. reflexivity. Qed.

(** C8: if file [fi] is the first file after [f0] whose root kind (array or
    not) differs from [f0]'s, the check fails with the single message naming
    [fi], [f0] and "(array vs object)"; later files are not looked at. *)
Theorem root_kind_mismatch_reason (f0 : JsonFile) (pre : list JsonFile)
    (fi : JsonFile) (post : list JsonFile) :
  Forall (fun f => isArray (content f) = isArray (content f0)) pre ->
  isArray (content fi) <> isArray (content f0) ->
  validateStructureConsistency (f0 :: pre ++ fi :: post)
  = invalid (root_type_error (name fi) (name f0)).
Proof.
  intros Hpre Hfi.
  assert (Hne : (pre ++ fi :: post)%list <> []) by (destruct pre; discriminate).
  unfold validateStructureConsistency.
  destruct (pre ++ fi :: post)%list as [|g gs] eqn:E; [congruence|].
  cbv beta iota zeta. rewrite <- E, (root_type_loop_first _ (name f0) _ _ _ Hpre Hfi).
  reflexivity.
Qed.

Lemma root_kind_mismatch_reason_witness :
  let f0 := file "a.json" (JArr [JNum 1]) in
  let f1 := file "b.json" (JArr []) in
  let f2 := file "c.json" (JObj [("x", JNum 1)]) in
  let f3 := file "d.json" (JObj []) in
  Forall (fun f => isArray (content f) = isArray (content f0)) [f1] /\
  isArray (content f2) <> isArray (content f0) /\
  validateStructureConsistency [f0; f1; f2; f3]
  = invalid (root_type_error "c.json" "a.json").
Proof.
  intros f0 f1 f2 f3. split; [|split].
  - repeat constructor.
  - discriminate.
  - exact (root_kind_mismatch_reason f0 [f1] f2 [f3]
             ltac:(repeat constructor) ltac:(discriminate)).
Defined.

Lemma validate_objects (f0 : JsonFile) (rest : list JsonFile) :
  Forall (fun f => exists kvs, content f = JObj kvs) (f0 :: rest) ->
  validateStructureConsistency (f0 :: rest) = valid.
Proof.
  intros Hall. inversion Hall as [|? ? [kvs0 H0] Hrest]; subst.
  destruct rest as [|g gs]; [reflexivity|].
  unfold validateStructureConsistency. cbv beta iota zeta. rewrite H0.
  change (isArray (JObj kvs0)) with false.
  rewrite (root_type_loop_same false).
  - cbv iota.
    rewrite object_loop_same; [reflexivity|].
    apply Forall_map. eapply Forall_impl; [|exact Hrest].
    intros f [kvs Hf]. simpl. rewrite Hf. reflexivity.
  - eapply Forall_impl; [|exact Hrest]. intros f [kvs Hf]. rewrite Hf. reflexivity.
Qed.

(** C6: a non-empty sequence of files whose roots are all objects always
    passes the check, whatever their keys and nested shapes. *)
Theorem all_objects_compatible (f0 : JsonFile) (rest : list JsonFile) :
  Forall (fun f => exists kvs, content f = JObj kvs) (f0 :: rest) ->
  validateStructureConsistency (f0 :: rest) = valid.
Proof. exact (validate_objects f0 rest). Qed.

Lemma all_objects_compatible_witness :
  Forall (fun f => exists kvs, content f = JObj kvs)
    [file "a" (JObj [("x", JNum 1)]); file "b" (JObj [("y", JArr [JNull])]); file "c" (JObj [])] /\
  validateStructureConsistency
    [file "a" (JObj [("x", JNum 1)]); file "b" (JObj [("y", JArr [JNull])]); file "c" (JObj [])]
  = valid.
Proof.
  assert (H : Forall (fun f => exists kvs, content f = JObj kvs)
    [file "a" (JObj [("x", JNum 1)]); file "b" (JObj [("y", JArr [JNull])]); file "c" (JObj [])])
    by (repeat constructor; eexists; reflexivity).
  split; [exact H | exact (all_objects_compatible _ _ H)].
Defined.

(** C10: when the first file is an empty array and all files are arrays,
    the check passes, even if later files' first elements have different
    fingerprints from each other. *)
Theorem empty_base_array_compatible (f0 : JsonFile) (rest : list JsonFile) :
  content f0 = JArr [] ->
  Forall (fun f => isArray (content f) = true) rest ->
  validateStructureConsistency (f0 :: rest) = valid.
Proof.
  intros H0 Hrest. destruct rest as [|g gs]; [reflexivity|].
  unfold validateStructureConsistency. cbv beta iota zeta. rewrite H0.
  change (isArray (JArr [])) with true.
  rewrite (root_type_loop_same true) by exact Hrest.
  cbv iota. unfold array_structure at 1. rewrite H0.
  rewrite array_loop_no_base. reflexivity.
Qed.

Lemma empty_base_array_compatible_witness :
  let f0 := file "a" (JArr []) in
  let f1 := file "b" (JArr [JNum 1]) in
  let f2 := file "c" (JArr [JObj [("k", JStr "v")]]) in
  content f0 = JArr [] /\
  Forall (fun f => isArray (content f) = true) [f1; f2] /\
  array_structure f1 <> array_structure f2 /\
  validateStructureConsistency [f0; f1; f2] = valid.
Proof.
  intros f0 f1 f2. split; [reflexivity|]. split; [repeat constructor|].
  split; [vm_compute; discriminate|].
  exact (empty_base_array_compatible f0 [f1; f2] eq_refl ltac:(repeat constructor)).
Defined.

(** C7 (as stated): on the empty sequence the checker fails, but
    [mergeJsonFiles] reports its own reason, not the checker's. *)
Lemma merge_reason_differs_on_empty :
  isValid (validateStructureConsistency []) = false /\
  merge_error (mergeJsonFiles []) <> error (validateStructureConsistency []).
Proof. split; [reflexivity | vm_compute; congruence]. Qed.

(** C7 (amended): for every non-empty sequence the checker rejects,
    [mergeJsonFiles] fails with the checker's reason and no data; the empty
    sequence is rejected before the checker runs, with no data and the
    reason "No files to merge". *)
Theorem merge_propagates_check_failure (files : list JsonFile) :
  files <> [] ->
  isValid (validateStructureConsistency files) = false ->
  mergeJsonFiles files
  = mkMerge false None (error (validateStructureConsistency files)).
Proof.
  intros Hne Hinv. destruct files as [|f0 fs]; [congruence|].
  unfold mergeJsonFiles. rewrite Hinv. reflexivity.
Qed.

Lemma merge_propagates_check_failure_witness :
  let fs := [file "a.json" (JArr [JNum 1; JNum 2; JNum 3]); file "b.json" (JObj [("x", JNum 1)])] in
  fs <> [] /\ isValid (validateStructureConsistency fs) = false /\
  mergeJsonFiles fs
  = mkMerge false None (Some (root_type_error "b.json" "a.json")).
Proof.
  intros fs. split; [discriminate|]. split; [reflexivity|].
  exact (merge_propagates_check_failure fs ltac:(discriminate) eq_refl).
Defined.

(** C5: for a compatible non-empty sequence of array roots, the merged value
    is the concatenation of all root arrays in file order. *)
Theorem merge_arrays_concat (files : list JsonFile) :
  files <> [] ->
  Forall (fun f => isArray (content f) = true) files ->
  isValid (validateStructureConsistency files) = true ->
  mergeJsonFiles files
  = mkMerge true (Some (of_jv (JArr (flat_map (fun f => array_elems (content f)) files)))) None.
Proof.
  intros Hne Hall Hok. destruct files as [|f0 fs]; [congruence|].
  unfold mergeJsonFiles. cbv beta iota zeta. rewrite Hok.
  inversion Hall as [|? ? H0 _]; subst. rewrite H0. simpl negb. cbv iota.
  rewrite fold_merge_arrays by (apply Forall_map; exact Hall).
  replace (flat_map array_elems (map content (f0 :: fs)))
    with (flat_map (fun f => array_elems (content f)) (f0 :: fs)); [reflexivity|].
  clear. induction (f0 :: fs) as [|f l IH]; simpl; [reflexivity|]. rewrite IH. reflexivity.
Qed.

Lemma merge_arrays_concat_witness :
  let fs := [file "a" (JArr [JObj [("a", JNum 1)]]);
             file "b" (JArr [JObj [("a", JNum 2); ("b", JNum 3)]; JObj [("a", JNum 1)]])] in
  fs <> [] /\ Forall (fun f => isArray (content f) = true) fs /\
  isValid (validateStructureConsistency fs) = true /\
  mergeJsonFiles fs
  = mkMerge true (Some (of_jv (JArr [JObj [("a", JNum 1)]; JObj [("a", JNum 2); ("b", JNum 3)];
                                     JObj [("a", JNum 1)]]))) None.
Proof.
  intros fs. split; [discriminate|]. split; [repeat constructor|].
  split; [reflexivity|].
  exact (merge_arrays_concat fs ltac:(discriminate) ltac:(repeat constructor) eq_refl).
Defined.

(** ** The fingerprint of [null] *)

(** C3 (as stated): the fingerprint of [null] is not the kind name "null". *)
Lemma null_fingerprint_not_null :
  generateCompatibleStructureHash JNull <> quote "null".
Proof. vm_compute. congruence. Qed.

(** C3 (amended): arrays fingerprint as JSON ["array","flexible-object"],
    objects as JSON ["object","flexible-properties"], anything else as the
    JSON string of its [typeof]; for [null] that is the quoted "object".  It
    still differs from the fingerprint of every object and every array, so a
    base array starting with [null] and an array starting with an object are
    incompatible. *)
Theorem null_fingerprint_distinct :
  generateCompatibleStructureHash JNull = quote "object" /\
  (forall v, isArray v = false -> (forall kvs, v <> JObj kvs) ->
             generateCompatibleStructureHash v = quote (typeof v)) /\
  (forall b, generateCompatibleStructureHash (JBool b) = quote "boolean") /\
  (forall n, generateCompatibleStructureHash (JNum n) = quote "number") /\
  (forall str, generateCompatibleStructureHash (JStr str) = quote "string") /\
  (forall l, generateCompatibleStructureHash (JArr l) = stringify_pair "array" "flexible-object") /\
  (forall kvs, generateCompatibleStructureHash (JObj kvs)
               = stringify_pair "object" "flexible-properties") /\
  (forall kvs, generateCompatibleStructureHash JNull <> generateCompatibleStructureHash (JObj kvs)) /\
  (forall l, generateCompatibleStructureHash JNull <> generateCompatibleStructureHash (JArr l)) /\
  (forall n0 n1 r0 kvs r1,
     validateStructureConsistency
       [file n0 (JArr (JNull :: r0)); file n1 (JArr (JObj kvs :: r1))]
     = invalid (array_struct_error n1 n0)).
Proof.
  split; [reflexivity|].
  split; [intros v Ha Ho; destruct v as [| | | | |l|kvs]; try reflexivity;
          [discriminate Ha | exfalso; exact (Ho kvs eq_refl)]|].
  split; [reflexivity|]. split; [reflexivity|]. split; [reflexivity|].
  split; [reflexivity|]. split; [reflexivity|].
  split; [intros kvs; vm_compute; congruence|].
  split; [intros l; vm_compute; congruence|].
  intros n0 n1 r0 kvs r1. reflexivity.
Qed.

(** ** Own properties and own-key order *)

Lemma existsb_keys {A : Type} (k : string) (l : list (string * A)) :
  existsb (String.eqb k) (map fst l) = has_own k l.
Proof.
  unfold has_own. induction l as [|[k' v] l IH]; simpl; [reflexivity|]. rewrite IH. reflexivity.
Qed.

Lemma has_own_iff {A : Type} (k : string) (l : list (string * A)) :
  has_own k l = true <-> In k (map fst l).
Proof.
  rewrite <- existsb_keys, existsb_exists. split.
  - intros [x [Hx Hk]]. apply String.eqb_eq in Hk. subst x. exact Hx.
  - intros H. exists k. split; [exact H | apply String.eqb_refl].
Qed.

Lemma key_in_has_own (k : string) (kvs : list (string * jv)) : key_in k kvs = has_own k kvs.
Proof. apply existsb_keys. Qed.

Lemma key_in_iff (k : string) (kvs : list (string * jv)) :
  key_in k kvs = true <-> In k (keys kvs).
Proof. rewrite key_in_has_own. apply has_own_iff. Qed.

Lemma own_get_none {A : Type} (k : string) (l : list (string * A)) :
  own_get k l = None <-> has_own k l = false.
Proof.
  unfold has_own. induction l as [|[k' v] l IH]; simpl; [tauto|].
  destruct (String.eqb k k'); simpl; [split; discriminate | exact IH].
Qed.

Lemma keys_replace {A : Type} (k : string) (v : A) (l : list (string * A)) :
  map fst (replace_prop k v l) = map fst l.
Proof.
  induction l as [|[k' v'] l IH]; simpl; [reflexivity|].
  destruct (String.eqb k k'); simpl; [reflexivity | rewrite IH; reflexivity].
Qed.

Lemma insert_prop_perm {A : Type} (k : string) (v : A) (l : list (string * A)) :
  Permutation (insert_prop k v l) ((k, v) :: l).
Proof.
  induction l as [|[k' v'] l IH]; simpl; [reflexivity|].
  destruct (array_index k) as [i|], (array_index k') as [j|];
    try destruct (i <? j)%Z; try reflexivity;
    (eapply perm_trans; [apply perm_skip; exact IH | apply perm_swap]).
Qed.

Lemma keys_obj_set_perm {A : Type} (k : string) (v : A) (l : list (string * A)) :
  Permutation (map fst (obj_set k v l)) (map fst l ++ (if has_own k l then [] else [k]))%list.
Proof.
  unfold obj_set. destruct (has_own k l).
  - rewrite keys_replace, app_nil_r. reflexivity.
  - eapply perm_trans; [apply Permutation_map; apply insert_prop_perm|]. simpl.
    apply Permutation_cons_append.
Qed.

Lemma In_obj_set {A : Type} (p : string * A) (k : string) (v : A) (l : list (string * A)) :
  In p (obj_set k v l) -> p = (k, v) \/ In p l.
Proof.
  unfold obj_set. destruct (has_own k l).
  - induction l as [|[k' v'] l IH]; simpl; [tauto|].
    destruct (String.eqb k k') eqn:E; simpl.
    + apply String.eqb_eq in E. subst k'.
      intros [H | H]; [left; symmetry; exact H | right; right; exact H].
    + intros [H | H]; [right; left; exact H|].
      destruct (IH H); [left | right; right]; assumption.
  - intros H. apply (Permutation_in _ (insert_prop_perm k v l)) in H.
    destruct H as [H | H]; [left; symmetry; exact H | right; exact H].
Qed.

Lemma own_get_replace {A : Type} (x k : string) (v : A) (l : list (string * A)) :
  has_own k l = true ->
  own_get x (replace_prop k v l) = if String.eqb x k then Some v else own_get x l.
Proof.
  unfold has_own. induction l as [|[k' v'] l IH]; simpl; intros H; [discriminate|].
  destruct (String.eqb k k') eqn:E; simpl.
  - apply String.eqb_eq in E. subst k'. destruct (String.eqb x k); reflexivity.
  - rewrite (IH H).
    destruct (String.eqb x k') eqn:E1, (String.eqb x k) eqn:E2; try reflexivity.
    apply String.eqb_eq in E1, E2. subst. rewrite String.eqb_refl in E. discriminate.
Qed.

Lemma own_get_insert {A : Type} (x k : string) (v : A) (l : list (string * A)) :
  has_own k l = false ->
  own_get x (insert_prop k v l) = if String.eqb x k then Some v else own_get x l.
Proof.
  unfold has_own. induction l as [|[k' v'] l IH]; intros H; [reflexivity|].
  simpl in H. apply orb_false_iff in H as [Hk Hl].
  assert (Hskip : own_get x ((k', v') :: insert_prop k v l)
                  = if String.eqb x k then Some v else own_get x ((k', v') :: l)).
  { simpl. rewrite (IH Hl).
    destruct (String.eqb x k') eqn:E1, (String.eqb x k) eqn:E2; try reflexivity.
    apply String.eqb_eq in E1, E2. subst. rewrite String.eqb_refl in Hk. discriminate. }
  cbn [insert_prop].
  destruct (array_index k) as [i|], (array_index k') as [j|];
    try destruct (i <? j)%Z; try exact Hskip; reflexivity.
Qed.

Lemma own_get_obj_set {A : Type} (x k : string) (v : A) (l : list (string * A)) :
  own_get x (obj_set k v l) = if String.eqb x k then Some v else own_get x l.
Proof.
  unfold obj_set. destruct (has_own k l) eqn:E.
  - apply own_get_replace. exact E.
  - apply own_get_insert. exact E.
Qed.

Lemma obj_get_own (k : string) (l : list (string * jv)) :
  obj_get k l = match own_get k l with Some v => v | None => JUndef end.
Proof.
  induction l as [|[k' v] l IH]; simpl; [reflexivity|].
  destruct (String.eqb k k'); [reflexivity | exact IH].
Qed.

Lemma obj_get_set (k k' : string) (v : jv) (l : list (string * jv)) :
  obj_get k (obj_set k' v l) = if String.eqb k k' then v else obj_get k l.
Proof. rewrite !obj_get_own, own_get_obj_set. destruct (String.eqb k k'); reflexivity. Qed.

Lemma keys_obj_set (k k' : string) (v : jv) (l : list (string * jv)) :
  In k (keys (obj_set k' v l)) <-> k = k' \/ In k (keys l).
Proof.
  unfold keys. split.
  - intros H. apply (Permutation_in _ (keys_obj_set_perm k' v l)) in H.
    apply in_app_iff in H as [H | H]; [right; exact H|].
    destruct (has_own k' l); simpl in H; [contradiction|].
    destruct H as [H | []]. left. symmetry. exact H.
  - intros H. apply (Permutation_in _ (Permutation_sym (keys_obj_set_perm k' v l))).
    apply in_app_iff. destruct H as [-> | H]; [|left; exact H].
    destruct (has_own k' l) eqn:E; [left; apply has_own_iff; exact E | right; left; reflexivity].
Qed.

Lemma nodup_obj_set {A : Type} (k : string) (v : A) (l : list (string * A)) :
  NoDup (map fst l) -> NoDup (map fst (obj_set k v l)).
Proof.
  intros H. apply (Permutation_NoDup (Permutation_sym (keys_obj_set_perm k v l))).
  destruct (has_own k l) eqn:E; [rewrite app_nil_r; exact H|].
  apply NoDup_app; [exact H | constructor; [intros [] | constructor] |].
  intros x Hx [Hy | []]. subst x. apply has_own_iff in Hx. congruence.
Qed.

Lemma key_before_trans (a b c : string) :
  key_before a b = true -> key_before b c = true -> key_before a c = true.
Proof.
  unfold key_before. intros H1 H2.
  destruct (array_index a), (array_index b), (array_index c); try discriminate; try reflexivity.
  rewrite Z.leb_le in *. lia.
Qed.

Lemma js_ordered_sorted (ks : list string) :
  js_ordered ks = true <-> StronglySorted (fun a b => key_before a b = true) ks.
Proof.
  induction ks as [|k ks IH]; simpl.
  - split; [constructor | reflexivity].
  - rewrite andb_true_iff, forallb_forall, IH. split.
    + intros [H1 H2]. constructor; [exact H2 | apply Forall_forall; exact H1].
    + intros H. inversion H as [|? ? H2 H1]; subst.
      split; [apply Forall_forall; exact H1 | exact H2].
Qed.

Lemma sorted_insert {A : Type} (k : string) (v : A) (l : list (string * A)) :
  StronglySorted (fun a b => key_before a b = true) (map fst l) ->
  StronglySorted (fun a b => key_before a b = true) (map fst (insert_prop k v l)).
Proof.
  induction l as [|[k' v'] l IH]; intros H.
  - repeat constructor.
  - simpl in H. inversion H as [|? ? Hs Hf]; subst.
    assert (Hhead : key_before k k' = true ->
                    StronglySorted (fun a b => key_before a b = true) (k :: k' :: map fst l)).
    { intros Hb. constructor; [exact H|]. constructor; [exact Hb|].
      eapply Forall_impl; [|exact Hf]. intros c Hc. exact (key_before_trans _ _ _ Hb Hc). }
    assert (Hskip : key_before k' k = true ->
                    StronglySorted (fun a b => key_before a b = true)
                      (k' :: map fst (insert_prop k v l))).
    { intros Hb. constructor; [exact (IH Hs)|].
      apply Forall_forall. intros c Hc.
      apply (Permutation_in _ (Permutation_map fst (insert_prop_perm k v l))) in Hc.
      destruct Hc as [<- | Hc]; [exact Hb | rewrite Forall_forall in Hf; exact (Hf c Hc)]. }
    cbn [insert_prop].
    destruct (array_index k) as [i|] eqn:Ei, (array_index k') as [j|] eqn:Ej.
    + destruct (i <? j)%Z eqn:E.
      * apply Hhead. unfold key_before. rewrite Ei, Ej. apply Z.leb_le. apply Z.ltb_lt in E. lia.
      * apply Hskip. unfold key_before. rewrite Ei, Ej. apply Z.leb_le. apply Z.ltb_ge in E. lia.
    + apply Hhead. unfold key_before. rewrite Ei, Ej. reflexivity.
    + apply Hskip. unfold key_before. rewrite Ei, Ej. reflexivity.
    + apply Hskip. unfold key_before. rewrite Ei, Ej. reflexivity.
Qed.

Lemma js_ordered_obj_set {A : Type} (k : string) (v : A) (l : list (string * A)) :
  js_ordered (map fst l) = true -> js_ordered (map fst (obj_set k v l)) = true.
Proof.
  rewrite !js_ordered_sorted. unfold obj_set. destruct (has_own k l).
  - rewrite keys_replace. tauto.
  - apply sorted_insert.
Qed.

Lemma before_of_ordered (l1 l2 : list string) (k : string) :
  js_ordered (l1 ++ k :: l2) = true -> forallb (fun k' => key_before k' k) l1 = true.
Proof.
  induction l1 as [|a l1 IH]; simpl; intros H; [reflexivity|].
  apply andb_true_iff in H as [H1 H2]. rewrite forallb_forall in H1.
  apply andb_true_iff. split.
  - apply H1. apply in_app_iff. right. left. reflexivity.
  - exact (IH H2).
Qed.

Lemma insert_prop_last {A : Type} (k : string) (v : A) (l : list (string * A)) :
  forallb (fun k' => key_before k' k) (map fst l) = true ->
  insert_prop k v l = (l ++ [(k, v)])%list.
Proof.
  induction l as [|[k' v'] l IH]; simpl; [reflexivity|].
  rewrite andb_true_iff. intros [Hb Hl]. rewrite <- (IH Hl).
  unfold key_before in Hb.
  destruct (array_index k) as [i|], (array_index k') as [j|]; try discriminate; try reflexivity.
  destruct (i <? j)%Z eqn:E; [|reflexivity].
  apply Z.leb_le in Hb. apply Z.ltb_lt in E. lia.
Qed.

Lemma obj_set_last {A : Type} (k : string) (v : A) (l : list (string * A)) :
  ~ In k (map fst l) -> forallb (fun k' => key_before k' k) (map fst l) = true ->
  obj_set k v l = (l ++ [(k, v)])%list.
Proof.
  intros Hn Hb. unfold obj_set.
  destruct (has_own k l) eqn:E; [apply has_own_iff in E; contradiction|].
  apply insert_prop_last. exact Hb.
Qed.

Lemma obj_set_nonindex {A : Type} (k : string) (v : A) (l : list (string * A)) :
  array_index k = None -> ~ In k (map fst l) -> obj_set k v l = (l ++ [(k, v)])%list.
Proof.
  intros Hi Hn. apply obj_set_last; [exact Hn|].
  apply forallb_forall. intros k' _. unfold key_before. rewrite Hi.
  destruct (array_index k'); reflexivity.
Qed.

Lemma keys_obj_set_eq (k : string) (v : jv) (l : list (string * jv)) :
  array_index k = None ->
  keys (obj_set k v l) = (keys l ++ (if key_in k l then [] else [k]))%list.
Proof.
  intros Hi. rewrite key_in_has_own. destruct (has_own k l) eqn:E.
  - unfold obj_set. rewrite E. unfold keys. rewrite keys_replace, app_nil_r. reflexivity.
  - rewrite obj_set_nonindex; [unfold keys; rewrite map_app; reflexivity | exact Hi |].
    intros H. apply has_own_iff in H. congruence.
Qed.

Lemma obj_get_in (k : string) (v : jv) (kvs : list (string * jv)) :
  NoDup (keys kvs) -> In (k, v) kvs -> obj_get k kvs = v.
Proof.
  induction kvs as [|[k1 v1] kvs IH]; simpl; intros Hnd Hin; [contradiction|].
  inversion Hnd as [|? ? Hk1 Hnd']; subst.
  destruct Hin as [Heq | Hin].
  - injection Heq as <- <-. rewrite String.eqb_refl. reflexivity.
  - destruct (String.eqb k k1) eqn:E.
    + apply String.eqb_eq in E. subst k1. exfalso. apply Hk1.
      apply (in_map fst) in Hin. exact Hin.
    + apply IH; assumption.
Qed.

(** ** The loop of [merge_plain] *)

Section MergeProps.
Variable f : jv -> jv -> jv.
Variable t : list (string * jv).

Lemma merge_props_keys (s res : list (string * jv)) (k : string) :
  In k (keys (merge_props f t res s)) <-> In k (keys res) \/ In k (keys s).
Proof.
  revert res. induction s as [|[k1 v1] s IH]; intros res; simpl.
  - tauto.
  - rewrite IH, keys_obj_set. unfold keys; simpl. intuition (subst; auto).
Qed.

Lemma merge_props_get (s res : list (string * jv)) (k : string) :
  NoDup (keys s) ->
  obj_get k (merge_props f t res s)
  = if key_in k s then f (obj_get k t) (obj_get k s) else obj_get k res.
Proof.
  revert res. induction s as [|[k1 v1] s IH]; intros res Hnd; simpl; [reflexivity|].
  inversion Hnd as [|? ? Hk1 Hnd']; subst.
  rewrite (IH _ Hnd'), obj_get_set. unfold key_in. simpl.
  destruct (String.eqb k k1) eqn:E; simpl.
  - apply String.eqb_eq in E. subst k1.
    destruct (existsb (String.eqb k) (keys s)) eqn:E'; [|reflexivity].
    exfalso. apply Hk1. apply key_in_iff. exact E'.
  - reflexivity.
Qed.

Lemma merge_props_nodup (s res : list (string * jv)) :
  NoDup (keys res) -> NoDup (keys (merge_props f t res s)).
Proof.
  revert res. induction s as [|[k1 v1] s IH]; intros res H; simpl; [exact H|].
  apply IH. apply nodup_obj_set. exact H.
Qed.

Lemma merge_props_ordered (s res : list (string * jv)) :
  js_ordered (keys res) = true -> js_ordered (keys (merge_props f t res s)) = true.
Proof.
  revert res. induction s as [|[k1 v1] s IH]; intros res H; simpl; [exact H|].
  apply IH. apply js_ordered_obj_set. exact H.
Qed.

Lemma merge_props_fresh (s res : list (string * jv)) :
  t = [] -> NoDup (keys res ++ keys s) -> js_ordered (keys res ++ keys s) = true ->
  merge_props f t res s = (res ++ map (fun kv => (fst kv, f JUndef (snd kv))) s)%list.
Proof.
  intros Ht. subst t. revert res.
  induction s as [|[k1 v1] s IH]; intros res Hnd Hord; simpl.
  - rewrite app_nil_r. reflexivity.
  - unfold keys in Hnd, Hord. simpl in Hnd, Hord.
    assert (Hn : ~ In k1 (map fst res)).
    { intros H. apply NoDup_remove_2 in Hnd. apply Hnd. apply in_app_iff. left. exact H. }
    rewrite (obj_set_last k1 _ res Hn (before_of_ordered _ _ _ Hord)).
    rewrite IH.
    + rewrite <- app_assoc. reflexivity.
    + unfold keys. rewrite map_app, <- app_assoc. exact Hnd.
    + unfold keys. rewrite map_app, <- app_assoc. exact Hord.
Qed.

Lemma merge_props_key_order (s res : list (string * jv)) :
  NoDup (keys s) -> Forall (fun k => array_index k = None) (keys s) ->
  keys (merge_props f t res s)
  = (keys res ++ filter (fun k => negb (key_in k res)) (keys s))%list.
Proof.
  revert res. induction s as [|[k1 v1] s IH]; intros res Hnd Hidx; simpl.
  - rewrite app_nil_r. reflexivity.
  - inversion Hnd as [|? ? Hk1 Hnd']; subst.
    inversion Hidx as [|? ? Hi1 Hidx']; subst.
    rewrite (IH _ Hnd' Hidx'), keys_obj_set_eq by exact Hi1. rewrite <- app_assoc.
    destruct (key_in k1 res) eqn:Ein; simpl; f_equal.
    + apply filter_ext_in. intros k Hk. unfold key_in.
      rewrite keys_obj_set_eq by exact Hi1. rewrite Ein, app_nil_r. reflexivity.
    + f_equal. rewrite filter_ext_in with (g := fun k => negb (key_in k res)); [reflexivity|].
      intros k Hk. unfold key_in at 1.
      rewrite keys_obj_set_eq by exact Hi1. rewrite Ein, existsb_app. simpl.
      destruct (String.eqb k k1) eqn:E.
      * apply String.eqb_eq in E. subst k. contradiction.
      * rewrite orb_false_r. reflexivity.
Qed.
End MergeProps.

Lemma merge_plain_objects (t s : list (string * jv)) :
  merge_plain (JObj t) (JObj s) = JObj (merge_props merge_plain t t s).
Proof. reflexivity. Qed.

Lemma merge_plain_undefined (v : jv) : merge_plain JUndef v = null_to_undefined v.
Proof. destruct v; reflexivity. Qed.

Lemma merge_plain_null (t s : jv) :
  merge_plain t s = JNull <-> t = JNull /\ (s = JNull \/ s = JUndef).
Proof. destruct s; destruct t; simpl; intuition congruence. Qed.

Lemma fold_merge_plain_not_null (l : list jv) (x : jv) :
  x <> JNull -> fold_left merge_plain l x <> JNull.
Proof.
  revert x. induction l as [|v l IH]; intros x Hx; simpl; [exact Hx|].
  apply IH. intros H. apply merge_plain_null in H as [H _]. exact (Hx H).
Qed.

Lemma fold_merge_plain_objects (files : list JsonFile) (r : list (string * jv)) :
  Forall object_file files ->
  exists r',
    fold_left (fun acc f => merge_plain acc (content f)) files (JObj r) = JObj r' /\
    forall k,
      (In k (keys r') <-> In k (keys r) \/ exists f, In f files /\ In k (file_keys f)) /\
      obj_get k r' = fold_left merge_plain (key_values k files) (obj_get k r).
Proof.
  intros H. revert r. induction H as [|f fs [kvs [Hc Hnd]] _ IH]; intros r.
  - exists r. split; [reflexivity|]. intros k. split; [|reflexivity].
    split; [tauto|]. intros [H | [f [[] _]]]. exact H.
  - destruct (IH (merge_props merge_plain r r kvs)) as [r' [Hfold Hr']].
    exists r'. split.
    { simpl. rewrite Hc, merge_plain_objects. exact Hfold. }
    intros k. destruct (Hr' k) as [Hkeys Hget]. split.
    + rewrite Hkeys, merge_props_keys. split.
      * intros [[H | H] | [g [Hg Hk]]].
        -- left. exact H.
        -- right. exists f. split; [left; reflexivity|]. unfold file_keys. rewrite Hc. exact H.
        -- right. exists g. split; [right; exact Hg | exact Hk].
      * intros [H | [g [[Hg | Hg] Hk]]].
        -- left. left. exact H.
        -- subst g. unfold file_keys in Hk. rewrite Hc in Hk. left. right. exact Hk.
        -- right. exists g. split; [exact Hg | exact Hk].
    + rewrite Hget, (merge_props_get _ _ _ _ _ Hnd).
      unfold key_values at 2. simpl flat_map. rewrite Hc. fold (key_values k fs).
      destruct (key_in k kvs); reflexivity.
Qed.

Lemma fold_objects_props (files : list JsonFile) (r : list (string * jv)) :
  NoDup (keys r) -> js_ordered (keys r) = true -> Forall object_file files ->
  exists r', fold_left (fun acc f => merge_plain acc (content f)) files (JObj r) = JObj r'
             /\ NoDup (keys r') /\ js_ordered (keys r') = true.
Proof.
  intros Hr Ho H. revert r Hr Ho. induction H as [|f fs [kvs [Hc Hnd]] _ IH]; intros r Hr Ho.
  - exists r. auto.
  - simpl. rewrite Hc, merge_plain_objects. apply IH.
    + apply merge_props_nodup. exact Hr.
    + apply merge_props_ordered. exact Ho.
Qed.

(** Merging object roots from [{}] with [merge_plain]. *)
Lemma fold_objects_shape (files : list JsonFile) :
  Forall object_file files ->
  exists kvs,
    fold_left (fun acc f => merge_plain acc (content f)) files (JObj []) = JObj kvs /\
    NoDup (keys kvs) /\ js_ordered (keys kvs) = true /\
    Forall (fun kv => snd kv <> JNull) kvs /\
    forall k,
      (In k (keys kvs) <-> exists f, In f files /\ In k (file_keys f)) /\
      obj_get k kvs = fold_left merge_plain (key_values k files) JUndef.
Proof.
  intros Hall.
  destruct (fold_merge_plain_objects files [] Hall) as [r' [Hfold Hr']].
  destruct (fold_objects_props files [] (NoDup_nil _) eq_refl Hall) as [r'' [Hfold' [Hnd Ho]]].
  assert (Heq : r'' = r') by congruence. subst r''.
  exists r'. split; [exact Hfold|]. split; [exact Hnd|]. split; [exact Ho|]. split.
  - apply Forall_forall. intros [k v] Hin. simpl. intros Hv'.
    rewrite <- (obj_get_in _ _ _ Hnd Hin) in Hv'.
    destruct (Hr' k) as [_ Hg]. rewrite Hg in Hv'. simpl in Hv'.
    exact (fold_merge_plain_not_null _ JUndef ltac:(discriminate) Hv').
  - intros k. destruct (Hr' k) as [Hk Hg]. split; [|exact Hg].
    rewrite Hk. simpl. tauto.
Qed.

(** ** Keys that name no property of [Object.prototype] *)

Lemma not_proto_iff (ks : list string) :
  forallb (fun k => negb (proto_key k)) ks = true <-> forall k, In k ks -> proto_key k = false.
Proof.
  rewrite forallb_forall. split; intros H k Hk; specialize (H k Hk);
    destruct (proto_key k); simpl in *; congruence.
Qed.

Lemma not_proto_hasOwnProperty (kvs : list (string * jv)) :
  (forall k, In k (map fst kvs) -> proto_key k = false) -> own_get "hasOwnProperty" kvs = None.
Proof.
  intros H. apply own_get_none. destruct (has_own "hasOwnProperty" kvs) eqn:E; [|reflexivity].
  apply has_own_iff, H in E. cbv in E. discriminate E.
Qed.

Lemma plain_obj (kvs : list (string * jv)) :
  plain_keys (JObj kvs) = true <->
  forall k v, In (k, v) kvs -> proto_key k = false /\ plain_keys v = true.
Proof.
  simpl. rewrite forallb_forall. split.
  - intros H k v Hin. specialize (H (k, v) Hin). simpl in H.
    apply andb_true_iff in H as [H1 H2].
    split; [destruct (proto_key k); [discriminate | reflexivity] | exact H2].
  - intros H [k v] Hin. destruct (H k v Hin) as [H1 H2]. simpl. rewrite H1, H2. reflexivity.
Qed.

Lemma plain_keys_in (kvs : list (string * jv)) (k : string) :
  plain_keys (JObj kvs) = true -> In k (map fst kvs) -> proto_key k = false.
Proof.
  intros H Hk. apply in_map_iff in Hk as [[k' v] [Hk Hin]]. simpl in Hk. subst k'.
  rewrite plain_obj in H. exact (proj1 (H k v Hin)).
Qed.

Lemma obj_get_plain (k : string) (kvs : list (string * jv)) :
  plain_keys (JObj kvs) = true -> plain_keys (obj_get k kvs) = true.
Proof.
  induction kvs as [|[k' v] kvs IH]; simpl; intros H; [reflexivity|].
  apply andb_true_iff in H as [H1 H2]. apply andb_true_iff in H1 as [_ H1].
  destruct (String.eqb k k'); [exact H1 | exact (IH H2)].
Qed.

Lemma plain_merge_props (tkvs res l : list (string * jv)) :
  plain_keys (JObj tkvs) = true -> plain_keys (JObj res) = true ->
  (forall k v, In (k, v) l -> proto_key k = false /\
     forall t, plain_keys t = true -> plain_keys (merge_plain t v) = true) ->
  plain_keys (JObj (merge_props merge_plain tkvs res l)) = true.
Proof.
  intros Ht. revert res. induction l as [|[k v] l IH]; intros res Hr Hl; simpl; [exact Hr|].
  apply IH; [|intros k' v' Hin; apply Hl; right; exact Hin].
  destruct (Hl k v (or_introl eq_refl)) as [Hk Hm].
  apply (proj2 (plain_obj _)). intros k' v' Hin. apply In_obj_set in Hin as [Heq | Hin].
  - injection Heq as -> ->. split; [exact Hk|]. apply Hm. apply obj_get_plain. exact Ht.
  - rewrite plain_obj in Hr. exact (Hr k' v' Hin).
Qed.

Lemma plain_merge_plain (s : jv) :
  plain_keys s = true -> forall t, plain_keys t = true -> plain_keys (merge_plain t s) = true.
Proof.
  induction s as [| | | | |l _|skvs IH] using jv_ind'; intros Hs t Ht.
  - exact Ht.
  - exact Ht.
  - destruct t; reflexivity.
  - destruct t; reflexivity.
  - destruct t; reflexivity.
  - destruct t as [| | | | |tl|]; try exact Hs.
    simpl in *. rewrite forallb_app, Ht, Hs. reflexivity.
  - destruct t as [| | | | | |tkvs]; try exact Hs.
    rewrite merge_plain_objects. apply plain_merge_props; [exact Ht | exact Ht |].
    intros k v Hin. rewrite plain_obj in Hs. destruct (Hs k v Hin) as [Hk Hv].
    split; [exact Hk|]. rewrite Forall_forall in IH. exact (IH (k, v) Hin Hv).
Qed.

Lemma fold_plain (files : list JsonFile) (a : jv) :
  plain_keys a = true -> Forall (fun f => plain_keys (content f) = true) files ->
  plain_keys (fold_left (fun acc f => merge_plain acc (content f)) files a) = true.
Proof.
  intros Ha H. revert a Ha. induction H as [|f fs Hf _ IH]; intros a Ha; simpl; [exact Ha|].
  apply IH. apply plain_merge_plain; assumption.
Qed.

Lemma key_values_plain (k : string) (files : list JsonFile) :
  Forall (fun f => plain_keys (content f) = true) files ->
  Forall (fun v => plain_keys v = true) (key_values k files).
Proof.
  intros H. apply Forall_forall. intros v Hv. unfold key_values in Hv.
  apply in_flat_map in Hv as [f [Hf Hv]]. rewrite Forall_forall in H.
  specialize (H f Hf). destruct (content f) as [| | | | | |kvs]; try contradiction.
  destruct (key_in k kvs); [|contradiction]. destruct Hv as [<- | []].
  apply obj_get_plain. exact H.
Qed.

(** ** [deepMerge] on sources whose keys name nothing inherited *)

Lemma proto_key_false (k : string) :
  proto_key k = false ->
  String.eqb k "__proto__" = false /\ member k object_prototype_methods = false.
Proof. unfold proto_key. apply orb_false_iff. Qed.

Lemma js_get_plain (tp : list (string * val)) (k : string) :
  proto_key k = false -> js_get (VObj tp VObjectPrototype) k = own_value k tp.
Proof.
  intros H. apply proto_key_false in H as [H1 H2].
  unfold js_get, own_value. simpl. destruct (own_get k tp); [reflexivity|].
  unfold object_prototype_get. rewrite H1, H2. reflexivity.
Qed.

Lemma set_prop_plain (res : list (string * val)) (k : string) (v : val) :
  proto_key k = false ->
  set_prop (res, VObjectPrototype) k v = (obj_set k v res, VObjectPrototype).
Proof.
  intros H. apply proto_key_false in H as [H1 _].
  unfold set_prop. destruct (own_get k res); [reflexivity|]. rewrite H1. reflexivity.
Qed.

Lemma for_in_plain (merge : val -> jv -> outcome val) (tp res : list (string * val))
    (s l : list (string * jv)) :
  own_get "hasOwnProperty" s = None ->
  (forall k, In k (map fst l) -> In k (map fst s) /\ proto_key k = false) ->
  for_in merge (VObj tp VObjectPrototype) s (res, VObjectPrototype) l
  = match props_loop merge tp res l with
    | Ok r => Ok (r, VObjectPrototype)
    | Throw e => Throw e
    end.
Proof.
  intros Hh Hl. revert res. induction l as [|[k v] l IH]; intros res; [reflexivity|].
  destruct (Hl k (or_introl eq_refl)) as [Hin Hp]. apply has_own_iff in Hin.
  cbn [for_in props_loop]. rewrite Hh, Hin, js_get_plain by exact Hp.
  destruct (merge (own_value k tp) v) as [mv|e]; [|reflexivity].
  rewrite set_prop_plain by exact Hp. apply IH. intros k' Hk'. apply Hl. right. exact Hk'.
Qed.

Lemma deepMerge_obj (tp : list (string * val)) (proto : val) (s : list (string * jv)) :
  deepMerge (VObj tp proto) (JObj s)
  = match for_in deepMerge (VObj tp proto) s (tp, VObjectPrototype) s with
    | Ok (props, p) => Ok (VObj props p)
    | Throw e => Throw e
    end.
Proof. reflexivity. Qed.

Lemma own_get_map {A B : Type} (g : A -> B) (k : string) (l : list (string * A)) :
  own_get k (map (fun p => (fst p, g (snd p))) l) = option_map g (own_get k l).
Proof.
  induction l as [|[k' v] l IH]; simpl; [reflexivity|].
  destruct (String.eqb k k'); [reflexivity | exact IH].
Qed.

Lemma own_value_of_jv (k : string) (l : list (string * jv)) :
  own_value k (map (fun p => (fst p, of_jv (snd p))) l) = of_jv (obj_get k l).
Proof.
  unfold own_value. rewrite own_get_map, obj_get_own. destruct (own_get k l); reflexivity.
Qed.

Lemma has_own_map {A B : Type} (g : A -> B) (k : string) (l : list (string * A)) :
  has_own k (map (fun p => (fst p, g (snd p))) l) = has_own k l.
Proof.
  unfold has_own. induction l as [|[k' v] l IH]; simpl; [reflexivity|]. rewrite IH. reflexivity.
Qed.

Lemma obj_set_map {A B : Type} (g : A -> B) (k : string) (v : A) (l : list (string * A)) :
  obj_set k (g v) (map (fun p => (fst p, g (snd p))) l)
  = map (fun p => (fst p, g (snd p))) (obj_set k v l).
Proof.
  unfold obj_set. rewrite has_own_map. destruct (has_own k l).
  - induction l as [|[k' v'] l IH]; simpl; [reflexivity|].
    destruct (String.eqb k k'); simpl; [reflexivity | rewrite IH; reflexivity].
  - induction l as [|[k' v'] l IH]; simpl; [reflexivity|].
    destruct (array_index k) as [i|], (array_index k') as [j|];
      try destruct (i <? j)%Z; simpl; try rewrite IH; reflexivity.
Qed.

Lemma props_loop_of_jv (tkvs res l : list (string * jv)) :
  Forall (fun p => plain_keys (snd p) = true ->
                   forall t, deepMerge (of_jv t) (snd p) = Ok (of_jv (merge_plain t (snd p)))) l ->
  (forall k v, In (k, v) l -> plain_keys v = true) ->
  props_loop deepMerge (map (fun p => (fst p, of_jv (snd p))) tkvs)
    (map (fun p => (fst p, of_jv (snd p))) res) l
  = Ok (map (fun p => (fst p, of_jv (snd p))) (merge_props merge_plain tkvs res l)).
Proof.
  revert res. induction l as [|[k v] l IH]; intros res Hl Hp; [reflexivity|].
  inversion Hl as [|? ? Hv Hl']; subst. cbn [props_loop merge_props].
  rewrite own_value_of_jv, (Hv (Hp k v (or_introl eq_refl))), obj_set_map.
  apply IH; [exact Hl'|]. intros k' v' Hin. apply (Hp k' v'). right. exact Hin.
Qed.

(** [deepMerge] on a JSON.parse value as target computes [merge_plain] when no
    key of the source names a property of [Object.prototype]. *)
Lemma deepMerge_of_jv (s : jv) :
  plain_keys s = true -> forall t, deepMerge (of_jv t) s = Ok (of_jv (merge_plain t s)).
Proof.
  induction s as [| | | | |l _|skvs IH] using jv_ind'; intros Hp t.
  - reflexivity.
  - reflexivity.
  - destruct t; reflexivity.
  - destruct t; reflexivity.
  - destruct t; reflexivity.
  - destruct t as [| | | | |tl|]; try reflexivity.
    simpl. rewrite map_app. reflexivity.
  - destruct t as [| | | | | |tkvs]; try reflexivity.
    cbn [of_jv]. rewrite deepMerge_obj, for_in_plain.
    + rewrite props_loop_of_jv; [reflexivity | exact IH |].
      intros k v Hin. rewrite plain_obj in Hp. exact (proj2 (Hp k v Hin)).
    + apply not_proto_hasOwnProperty. intros k Hk. exact (plain_keys_in _ _ Hp Hk).
    + intros k Hk. split; [exact Hk | exact (plain_keys_in _ _ Hp Hk)].
Qed.

Lemma fold_merge_of_jv (cs : list jv) (a : jv) :
  Forall (fun c => plain_keys c = true) cs ->
  fold_merge (of_jv a) cs = Ok (of_jv (fold_left merge_plain cs a)).
Proof.
  intros H. revert a. induction H as [|c cs Hc _ IH]; intros a; [reflexivity|].
  cbn [fold_merge fold_left]. rewrite (deepMerge_of_jv c Hc a). apply IH.
Qed.

Lemma fold_left_content {B : Type} (g : B -> jv -> B) (files : list JsonFile) (a : B) :
  fold_left g (map content files) a = fold_left (fun acc f => g acc (content f)) files a.
Proof. revert a. induction files as [|f fs IH]; intros a; simpl; [reflexivity | apply IH]. Qed.

Lemma mergeJsonFiles_plain (f0 : JsonFile) (fs : list JsonFile) :
  isValid (validateStructureConsistency (f0 :: fs)) = true ->
  Forall (fun f => plain_keys (content f) = true) (f0 :: fs) ->
  mergeJsonFiles (f0 :: fs)
  = mkMerge true (Some (of_jv (fold_left (fun acc f => merge_plain acc (content f)) (f0 :: fs)
                                 (if isArray (content f0) then JArr [] else JObj [])))) None.
Proof.
  intros Hv Hp. unfold mergeJsonFiles. cbv beta iota zeta. rewrite Hv. simpl negb. cbv iota.
  replace (if isArray (content f0) then VArr [] else VObj [] VObjectPrototype)
    with (of_jv (if isArray (content f0) then JArr [] else JObj []))
    by (destruct (isArray (content f0)); reflexivity).
  rewrite fold_merge_of_jv by (apply Forall_map; exact Hp).
  rewrite fold_left_content. reflexivity.
Qed.

Lemma merge_objects_plain (f0 : JsonFile) (fs : list JsonFile) :
  Forall object_file (f0 :: fs) ->
  Forall (fun f => plain_keys (content f) = true) (f0 :: fs) ->
  mergeJsonFiles (f0 :: fs)
  = mkMerge true (Some (of_jv (fold_left (fun acc f => merge_plain acc (content f)) (f0 :: fs)
                                 (JObj [])))) None.
Proof.
  intros Hall Hp.
  assert (Hv : validateStructureConsistency (f0 :: fs) = valid).
  { apply validate_objects. eapply Forall_impl; [|exact Hall].
    intros f [kvs [Hc _]]. exists kvs. exact Hc. }
  rewrite mergeJsonFiles_plain by first [rewrite Hv; reflexivity | exact Hp].
  inversion Hall as [|? ? [kvs0 [Hc0 _]] _]; subst. rewrite Hc0. reflexivity.
Qed.

Lemma props_loop_fresh (merge : val -> jv -> outcome val) (g : jv -> val)
    (res : list (string * val)) (l : list (string * jv)) :
  (forall v, merge VUndef v = Ok (g v)) ->
  NoDup (map fst res ++ map fst l) -> js_ordered (map fst res ++ map fst l) = true ->
  props_loop merge [] res l = Ok (res ++ map (fun p => (fst p, g (snd p))) l)%list.
Proof.
  intros Hg. revert res. induction l as [|[k v] l IH]; intros res Hnd Hord.
  - simpl. rewrite app_nil_r. reflexivity.
  - simpl in Hnd, Hord. cbn [props_loop]. unfold own_value. simpl own_get. cbv iota.
    rewrite Hg.
    assert (Hn : ~ In k (map fst res)).
    { intros H. apply NoDup_remove_2 in Hnd. apply Hnd. apply in_app_iff. left. exact H. }
    rewrite (obj_set_last k _ res Hn (before_of_ordered _ _ _ Hord)).
    rewrite IH.
    + rewrite <- app_assoc. reflexivity.
    + rewrite map_app, <- app_assoc. exact Hnd.
    + rewrite map_app, <- app_assoc. exact Hord.
Qed.

Lemma of_jv_inj (a b : jv) : of_jv a = of_jv b -> a = b.
Proof.
  revert b. induction a as [| | | | |l IH|kvs IH] using jv_ind'; intros w H;
    destruct w as [| | | | |l'|kvs']; simpl in H; try discriminate; try congruence.
  - injection H as H. f_equal. revert l' H.
    induction IH as [|x l Hx _ IHl]; intros [|y l'] H; simpl in H; try discriminate; [reflexivity|].
    injection H as H1 H2. f_equal; [apply Hx; exact H1 | apply IHl; exact H2].
  - injection H as H. f_equal. revert kvs' H.
    induction IH as [|[k x] l Hx _ IHl]; intros [|[k' y] l'] H; simpl in H; try discriminate;
      [reflexivity|].
    injection H as H1 H2 H3. f_equal; [f_equal; [exact H1 | apply Hx; exact H2] | apply IHl; exact H3].
Qed.

(** ** Claims about merging *)

(** C1 (as stated): for [{"a":[1,2]}] and [{"a":[3],"d":null}] the merged
    value is not [{"a":[1,2,3],"d":null}]. *)
Lemma scenario3_not_null :
  mergeJsonFiles [file "1.json" (JObj [("a", JArr [JNum 1; JNum 2])]);
                  file "2.json" (JObj [("a", JArr [JNum 3]); ("d", JNull)])]
  <> mkMerge true (Some (of_jv (JObj [("a", JArr [JNum 1; JNum 2; JNum 3]); ("d", JNull)]))) None.
Proof. vm_compute. congruence. Qed.

(** C1 (amended): the merge succeeds with ["a"] bound to [[1,2,3]] and ["d"]
    bound to [undefined] (a [null] source never replaces the target, here
    the missing [target["d"]]), so the serialised output is
    [{"a":[1,2,3]}]. *)
Theorem scenario3_merge :
  let merged := VObj [("a", VArr [VNum 1; VNum 2; VNum 3]); ("d", VUndef)] VObjectPrototype in
  mergeJsonFiles [file "1.json" (JObj [("a", JArr [JNum 1; JNum 2])]);
                  file "2.json" (JObj [("a", JArr [JNum 3]); ("d", JNull)])]
  = mkMerge true (Some merged) None /\
  json_view merged = JObj [("a", JArr [JNum 1; JNum 2; JNum 3])].
Proof. split; reflexivity. Qed.

(** C2 (as stated): a single object document with a [null] property does not
    come back unchanged. *)
Lemma single_null_not_identity :
  mergeJsonFiles [file "a.json" (JObj [("d", JNull)])]
  <> mkMerge true (Some (of_jv (JObj [("d", JNull)]))) None.
Proof. vm_compute. congruence. Qed.

(** C2 (amended): merging a single document with an array root returns that
    array unchanged.  With an object root (no duplicate keys, no top-level
    key naming a property of [Object.prototype] such as ["__proto__"],
    ["hasOwnProperty"] or ["toString"], keys in the order [JSON.parse]
    creates them) it returns the object with its top-level [null]
    properties set to [undefined] and everything else, nested [null]s
    included, unchanged. *)
Theorem merge_single_file (f : JsonFile) :
  isArray (content f) = true \/
  (object_file f /\ forallb (fun k => negb (proto_key k)) (file_keys f) = true /\
   js_ordered (file_keys f) = true) ->
  mergeJsonFiles [f] = mkMerge true (Some (of_jv (single_merge_view (content f)))) None.
Proof.
  intros [Harr | [[kvs [Hc Hnd]] [Hnp Hord]]].
  - unfold mergeJsonFiles; cbn [validateStructureConsistency isValid valid negb map].
    destruct (content f) as [| | | | |l|]; try discriminate Harr. reflexivity.
  - unfold file_keys in Hnp, Hord. rewrite Hc in Hnp, Hord. unfold keys in Hnp, Hord, Hnd.
    rewrite not_proto_iff in Hnp.
    assert (Hm : deepMerge (VObj [] VObjectPrototype) (JObj kvs)
                 = Ok (VObj (map (fun p => (fst p, of_jv (null_to_undefined (snd p)))) kvs)
                            VObjectPrototype)).
    { rewrite deepMerge_obj, for_in_plain.
      - rewrite (props_loop_fresh deepMerge (fun v => of_jv (null_to_undefined v)));
          [reflexivity | | exact Hnd | exact Hord].
        intros v. destruct v; reflexivity.
      - apply not_proto_hasOwnProperty. exact Hnp.
      - intros k Hk. split; [exact Hk | apply Hnp; exact Hk]. }
    unfold mergeJsonFiles; cbn [validateStructureConsistency isValid valid negb map].
    rewrite Hc. cbn [isArray fold_merge]. rewrite Hm. cbn [single_merge_view of_jv].
    rewrite map_map. reflexivity.
Qed.

Lemma merge_single_file_witness :
  let f := file "a.json" (JObj [("d", JNull); ("x", JArr [JNull]); ("y", JNum 1)]) in
  (isArray (content f) = true \/
   (object_file f /\ forallb (fun k => negb (proto_key k)) (file_keys f) = true /\
    js_ordered (file_keys f) = true)) /\
  mergeJsonFiles [f]
  = mkMerge true (Some (VObj [("d", VUndef); ("x", VArr [VNull]); ("y", VNum 1)] VObjectPrototype))
            None.
Proof.
  intros f.
  assert (H : isArray (content f) = true \/
              (object_file f /\ forallb (fun k => negb (proto_key k)) (file_keys f) = true /\
               js_ordered (file_keys f) = true)).
  { right. split; [|split; reflexivity]. eexists. split; [reflexivity|].
    unfold keys; simpl. repeat constructor; simpl; intuition discriminate. }
  split; [exact H | exact (merge_single_file f H)].
Defined.

(** C4 (as stated): a key present only in a later document, with value
    [null], does not keep that value. *)
Lemma lone_null_key_not_kept :
  ~ (exists props,
       mergeJsonFiles [file "1.json" (JObj [("a", JNum 1)]);
                       file "2.json" (JObj [("d", JNull)])]
       = mkMerge true (Some (VObj props VObjectPrototype)) None /\ own_value "d" props = VNull).
Proof.
  intros [props [H Hd]]. vm_compute in H. injection H as <-. vm_compute in Hd. discriminate Hd.
Qed.

(** C4 (amended): for a non-empty sequence of object roots (no duplicate
    keys, and no key at any depth naming a property of [Object.prototype])
    the merge succeeds with an object whose own keys are exactly the keys of
    all documents, and the value at each key is the left fold of [deepMerge]
    from [undefined] over the values the documents holding the key give it,
    in file order: a [null] never replaces an earlier value, and a key whose
    values are all [null] is bound to [undefined]. *)
Theorem merge_objects_key_union (files : list JsonFile) :
  files <> [] ->
  Forall object_file files ->
  Forall (fun f => plain_keys (content f) = true) files ->
  exists props,
    mergeJsonFiles files = mkMerge true (Some (VObj props VObjectPrototype)) None /\
    forall k,
      (In k (map fst props) <-> exists f, In f files /\ In k (file_keys f)) /\
      fold_merge VUndef (key_values k files) = Ok (own_value k props).
Proof.
  intros Hne Hall Hp. destruct files as [|f0 fs]; [congruence|].
  destruct (fold_objects_shape _ Hall) as [kvs [Hfold [_ [_ [_ Hk]]]]].
  exists (map (fun p => (fst p, of_jv (snd p))) kvs). split.
  - rewrite merge_objects_plain by assumption. rewrite Hfold. reflexivity.
  - intros k. destruct (Hk k) as [Hkeys Hget]. split.
    + rewrite map_map. exact Hkeys.
    + change VUndef with (of_jv JUndef).
      rewrite fold_merge_of_jv by (apply key_values_plain; exact Hp).
      rewrite own_value_of_jv, Hget. reflexivity.
Qed.

Lemma merge_objects_key_union_witness :
  let fs := [file "1.json" (JObj [("a", JNum 1); ("b", JNum 2)]);
             file "2.json" (JObj [("b", JNum 3); ("c", JNum 4)]);
             file "3.json" (JObj [("b", JNull); ("d", JNull)])] in
  fs <> [] /\ Forall object_file fs /\ Forall (fun f => plain_keys (content f) = true) fs /\
  mergeJsonFiles fs
  = mkMerge true (Some (VObj [("a", VNum 1); ("b", VNum 3); ("c", VNum 4); ("d", VUndef)]
                             VObjectPrototype)) None.
Proof.
  intros fs.
  assert (H : Forall object_file fs).
  { repeat constructor; eexists; (split; [reflexivity|]);
      unfold keys; simpl; repeat constructor; simpl; intuition discriminate. }
  assert (Hp : Forall (fun f => plain_keys (content f) = true) fs) by repeat constructor.
  destruct (merge_objects_key_union fs ltac:(discriminate) H Hp) as [props [Hm _]].
  split; [discriminate|]. split; [exact H|]. split; [exact Hp|]. reflexivity.
Defined.

(** ** Further properties of [deepMerge] and [mergeJsonFiles] *)

(** X1: [deepMerge] of an object parsed by [JSON.parse] and a source object
    (no duplicate keys, no key at any depth naming a property of
    [Object.prototype]) is an object whose keys are those of the target and
    of the source; a key of the source maps to the recursive [deepMerge] of
    the two values, any other key keeps the target's value. *)
Theorem deepMerge_objects_lookup (t s : list (string * jv)) :
  NoDup (keys s) -> plain_keys (JObj s) = true ->
  exists r, deepMerge (of_jv (JObj t)) (JObj s) = Ok (of_jv (JObj r)) /\
    forall k, (In k (keys r) <-> In k (keys t) \/ In k (keys s)) /\
      (if key_in k s then deepMerge (of_jv (obj_get k t)) (obj_get k s) = Ok (of_jv (obj_get k r))
       else obj_get k r = obj_get k t).
Proof.
  intros Hs Hp. exists (merge_props merge_plain t t s). split.
  - rewrite (deepMerge_of_jv _ Hp). reflexivity.
  - intros k. split; [apply merge_props_keys|]. rewrite (merge_props_get _ _ _ _ _ Hs).
    destruct (key_in k s); [|reflexivity].
    apply deepMerge_of_jv. apply obj_get_plain. exact Hp.
Qed.

Lemma deepMerge_objects_lookup_witness :
  NoDup (keys [("b", JArr [JNum 3]); ("c", JNull)]) /\
  plain_keys (JObj [("b", JArr [JNum 3]); ("c", JNull)]) = true /\
  deepMerge (of_jv (JObj [("a", JNum 1); ("b", JArr [JNum 2])]))
            (JObj [("b", JArr [JNum 3]); ("c", JNull)])
  = Ok (VObj [("a", VNum 1); ("b", VArr [VNum 2; VNum 3]); ("c", VUndef)] VObjectPrototype).
Proof.
  assert (H : NoDup (keys [("b", JArr [JNum 3]); ("c", JNull)]))
    by (unfold keys; simpl; repeat constructor; simpl; intuition discriminate).
  destruct (deepMerge_objects_lookup [("a", JNum 1); ("b", JArr [JNum 2])] _ H eq_refl)
    as [r [Hr _]].
  split; [exact H|]. split; reflexivity.
Defined.

(** X2: when no key of the source is an array index, the keys of [deepMerge]
    of two objects come in the order of the target's keys followed by the
    source's keys missing from the target, in the source's order. *)
Theorem deepMerge_objects_key_order (t s : list (string * jv)) :
  NoDup (keys s) -> plain_keys (JObj s) = true ->
  Forall (fun k => array_index k = None) (keys s) ->
  exists r, deepMerge (of_jv (JObj t)) (JObj s) = Ok (of_jv (JObj r)) /\
    keys r = (keys t ++ filter (fun k => negb (key_in k t)) (keys s))%list.
Proof.
  intros Hs Hp Hi. exists (merge_props merge_plain t t s). split.
  - rewrite (deepMerge_of_jv _ Hp). reflexivity.
  - apply merge_props_key_order; assumption.
Qed.

Lemma deepMerge_objects_key_order_witness :
  NoDup (keys [("z", JNum 0); ("b", JNum 3); ("a", JNum 2)]) /\
  plain_keys (JObj [("z", JNum 0); ("b", JNum 3); ("a", JNum 2)]) = true /\
  Forall (fun k => array_index k = None) (keys [("z", JNum 0); ("b", JNum 3); ("a", JNum 2)]) /\
  deepMerge (of_jv (JObj [("b", JNum 1); ("y", JNum 1)]))
            (JObj [("z", JNum 0); ("b", JNum 3); ("a", JNum 2)])
  = Ok (VObj [("b", VNum 3); ("y", VNum 1); ("z", VNum 0); ("a", VNum 2)] VObjectPrototype).
Proof.
  assert (H : NoDup (keys [("z", JNum 0); ("b", JNum 3); ("a", JNum 2)]))
    by (unfold keys; simpl; repeat constructor; simpl; intuition discriminate).
  assert (Hi : Forall (fun k => array_index k = None)
                 (keys [("z", JNum 0); ("b", JNum 3); ("a", JNum 2)])) by repeat constructor.
  destruct (deepMerge_objects_key_order [("b", JNum 1); ("y", JNum 1)] _ H eq_refl Hi)
    as [r [Hr Hk]].
  split; [exact H|]. split; [reflexivity|]. split; [exact Hi|]. reflexivity.
Defined.

(** X3: [deepMerge] returns [null] exactly when the target is [null] and the
    source is [null] or [undefined]. *)
Theorem deepMerge_returns_null_iff (t : val) (s : jv) :
  deepMerge t s = Ok VNull <-> t = VNull /\ (s = JNull \/ s = JUndef).
Proof.
  split.
  - intros H. destruct s; simpl in H;
      try (injection H as ->; auto; fail);
      destruct t; simpl in H; try discriminate;
      destruct (for_in _ _ _ _ _) as [[p q]|e]; discriminate.
  - intros [-> [-> | ->]]; reflexivity.
Qed.

(** X4: merging a non-empty sequence of object roots (no key at any depth
    naming a property of [Object.prototype]) succeeds with an object that
    has no duplicate keys and binds no top-level key to [null]. *)
Theorem merge_objects_no_top_null (files : list JsonFile) :
  files <> [] -> Forall object_file files ->
  Forall (fun f => plain_keys (content f) = true) files ->
  exists props, mergeJsonFiles files = mkMerge true (Some (VObj props VObjectPrototype)) None /\
    NoDup (map fst props) /\ Forall (fun kv => snd kv <> VNull) props.
Proof.
  intros Hne Hall Hp. destruct files as [|f0 fs]; [congruence|].
  destruct (fold_objects_shape _ Hall) as [kvs [Hfold [Hnd [_ [Hnn _]]]]].
  exists (map (fun p => (fst p, of_jv (snd p))) kvs). split; [|split].
  - rewrite merge_objects_plain by assumption. rewrite Hfold. reflexivity.
  - rewrite map_map. exact Hnd.
  - apply Forall_map. eapply Forall_impl; [|exact Hnn].
    intros [k v] Hv. simpl in *. destruct v; simpl; congruence.
Qed.

Lemma merge_objects_no_top_null_witness :
  let fs := [file "1.json" (JObj [("a", JNull); ("b", JNum 1)]);
             file "2.json" (JObj [("b", JNull); ("c", JNull)])] in
  fs <> [] /\ Forall object_file fs /\ Forall (fun f => plain_keys (content f) = true) fs /\
  mergeJsonFiles fs
  = mkMerge true (Some (VObj [("a", VUndef); ("b", VNum 1); ("c", VUndef)] VObjectPrototype)) None.
Proof.
  intros fs.
  assert (H : Forall object_file fs).
  { repeat constructor; eexists; (split; [reflexivity|]);
      unfold keys; simpl; repeat constructor; simpl; intuition discriminate. }
  assert (Hp : Forall (fun f => plain_keys (content f) = true) fs) by repeat constructor.
  destruct (merge_objects_no_top_null fs ltac:(discriminate) H Hp) as [props [Hm _]].
  split; [discriminate|]. split; [exact H|]. split; [exact Hp|]. reflexivity.
Defined.

(** X5: for object roots with no key at any depth naming a property of
    [Object.prototype], merging in two steps gives the same result as
    merging at once: if [fs1] merges to the object [m], a file with root [m]
    followed by [fs2] merges exactly as [fs1 ++ fs2]. *)
Theorem merge_objects_incremental (fs1 fs2 : list JsonFile) (g : JsonFile) :
  fs1 <> [] -> Forall object_file (fs1 ++ fs2) ->
  Forall (fun f => plain_keys (content f) = true) (fs1 ++ fs2) ->
  exists m, mergeJsonFiles fs1 = mkMerge true (Some (of_jv (JObj m))) None /\
    (content g = JObj m -> mergeJsonFiles (g :: fs2) = mergeJsonFiles (fs1 ++ fs2)).
Proof.
  intros Hne Hall Hp.
  apply Forall_app in Hall as [H1 H2]. apply Forall_app in Hp as [Hp1 Hp2].
  destruct (fold_objects_shape fs1 H1) as [m [Hfold1 [Hnd [Hord [Hnn _]]]]].
  assert (Hpm : plain_keys (JObj m) = true).
  { rewrite <- Hfold1. apply fold_plain; [reflexivity | exact Hp1]. }
  destruct fs1 as [|f1 fs1]; [congruence|].
  exists m. split.
  { rewrite merge_objects_plain by assumption. rewrite Hfold1. reflexivity. }
  intros Hg.
  assert (Hgo : object_file g) by (exists m; split; assumption).
  rewrite merge_objects_plain; [|constructor; assumption | constructor; [rewrite Hg|]; assumption].
  rewrite <- app_comm_cons, merge_objects_plain;
    [| rewrite app_comm_cons; apply Forall_app; split; assumption
     | rewrite app_comm_cons; apply Forall_app; split; assumption].
  rewrite app_comm_cons, fold_left_app, Hfold1. simpl fold_left at 1.
  rewrite Hg, merge_plain_objects, merge_props_fresh; [| reflexivity | exact Hnd | exact Hord].
  simpl app.
  replace (map (fun kv => (fst kv, merge_plain JUndef (snd kv))) m) with m; [reflexivity|].
  clear -Hnn. induction Hnn as [|[k v] m Hv _ IH]; simpl; [reflexivity|].
  rewrite merge_plain_undefined, <- IH. simpl in Hv.
  destruct v; try reflexivity. contradiction.
Qed.

Lemma merge_objects_incremental_witness :
  let fs1 := [file "1.json" (JObj [("a", JArr [JNum 1]); ("n", JNull)]);
              file "2.json" (JObj [("a", JArr [JNum 2])])] in
  let fs2 := [file "3.json" (JObj [("a", JArr [JNum 3]); ("b", JBool true)])] in
  let g := file "merged.json" (JObj [("a", JArr [JNum 1; JNum 2]); ("n", JUndef)]) in
  fs1 <> [] /\ Forall object_file (fs1 ++ fs2) /\
  Forall (fun f => plain_keys (content f) = true) (fs1 ++ fs2) /\
  mergeJsonFiles fs1 = mkMerge true (Some (of_jv (content g))) None /\
  mergeJsonFiles (g :: fs2) = mergeJsonFiles (fs1 ++ fs2).
Proof.
  intros fs1 fs2 g.
  assert (H : Forall object_file (fs1 ++ fs2)).
  { repeat constructor; eexists; (split; [reflexivity|]);
      unfold keys; simpl; repeat constructor; simpl; intuition discriminate. }
  assert (Hp : Forall (fun f => plain_keys (content f) = true) (fs1 ++ fs2))
    by repeat constructor.
  destruct (merge_objects_incremental fs1 fs2 g ltac:(discriminate) H Hp) as [m [Hm Hinc]].
  assert (Hc : mergeJsonFiles fs1 = mkMerge true (Some (of_jv (content g))) None) by reflexivity.
  split; [discriminate|]. split; [exact H|]. split; [exact Hp|]. split; [exact Hc|].
  apply Hinc. rewrite Hc in Hm. injection Hm as Hmg.
  apply of_jv_inj. simpl. rewrite <- Hmg. reflexivity.
Defined.

(** ** Further properties of [validateStructureConsistency] *)

Lemma root_type_loop_none_iff (b : bool) (n0 : string) (fs : list JsonFile) :
  root_type_loop b n0 fs = None <-> Forall (fun f => isArray (content f) = b) fs.
Proof.
  induction fs as [|f fs IH]; simpl.
  - split; constructor.
  - destruct (Bool.eqb b (isArray (content f))) eqn:E.
    + apply eqb_prop in E. rewrite IH. split.
      * intros H. constructor; [symmetry; exact E | exact H].
      * intros H. inversion H. assumption.
    + split; [discriminate|]. intros H. apply Forall_inv in H.
      rewrite H, eqb_reflx in E. discriminate.
Qed.

Lemma array_loop_none_iff (base : option string) (n0 : string)
    (cs : list (JsonFile * option string)) :
  array_loop base n0 cs = None <->
  Forall (fun p => snd p = None \/ base = None \/ snd p = base) cs.
Proof.
  induction cs as [|[f ci] cs IH]; simpl.
  - split; constructor.
  - destruct ci as [c|], base as [b|]; simpl.
    + destruct (String.eqb c b) eqn:E.
      * apply String.eqb_eq in E. subst c. rewrite IH. split.
        -- intros H. constructor; auto.
        -- intros H. inversion H. assumption.
      * split; [discriminate|]. intros H. apply Forall_inv in H as Hf. simpl in Hf.
        destruct Hf as [Hf|[Hf|Hf]]; try discriminate.
        injection Hf as ->. rewrite String.eqb_refl in E. discriminate.
    + rewrite IH. split; [intros H; constructor; auto | intros H; inversion H; assumption].
    + rewrite IH. split; [intros H; constructor; auto | intros H; inversion H; assumption].
    + rewrite IH. split; [intros H; constructor; auto | intros H; inversion H; assumption].
Qed.

Lemma object_loop_none_iff (base n0 : string) (cs : list (JsonFile * string)) :
  object_loop base n0 cs = None <-> Forall (fun p => snd p = base) cs.
Proof.
  induction cs as [|[f c] cs IH]; simpl.
  - split; constructor.
  - destruct (String.eqb c base) eqn:E.
    + apply String.eqb_eq in E. subst c. rewrite IH. split.
      * intros H. constructor; auto.
      * intros H. inversion H. assumption.
    + split; [discriminate|]. intros H. apply Forall_inv in H as Hf.
      simpl in Hf. subst c. rewrite String.eqb_refl in E. discriminate.
Qed.

(** Whether the check passes, as a condition on the contents only. *)
Lemma validate_isValid_iff (f0 : JsonFile) (rest : list JsonFile) :
  isValid (validateStructureConsistency (f0 :: rest)) = true <->
  Forall (fun f => isArray (content f) = isArray (content f0)) rest /\
  (if isArray (content f0)
   then Forall (fun f => array_structure f = None \/ array_structure f0 = None \/
                         array_structure f = array_structure f0) rest
   else Forall (fun f => generateCompatibleStructureHash (content f)
                         = generateCompatibleStructureHash (content f0)) rest).
Proof.
  destruct rest as [|g gs].
  - simpl. destruct (isArray (content f0)); repeat split; constructor.
  - unfold validateStructureConsistency. cbv beta iota zeta.
    destruct (root_type_loop (isArray (content f0)) (name f0) (g :: gs)) as [msg|] eqn:Er.
    + split; [discriminate|]. intros [H _].
      apply (root_type_loop_none_iff _ (name f0)) in H. rewrite H in Er. discriminate.
    + apply root_type_loop_none_iff in Er.
      destruct (isArray (content f0)).
      * destruct (array_loop _ _ _) as [msg|] eqn:Ea.
        -- split; [discriminate|]. intros [_ H].
           assert (H' : array_loop (array_structure f0) (name f0)
                          (map (fun f => (f, array_structure f)) (g :: gs)) = None)
             by (apply array_loop_none_iff, Forall_map; exact H).
           congruence.
        -- split; [intros _; split; [exact Er|] | reflexivity].
           apply array_loop_none_iff, Forall_map in Ea. exact Ea.
      * destruct (object_loop _ _ _) as [msg|] eqn:Eo.
        -- split; [discriminate|]. intros [_ H].
           assert (H' : object_loop (generateCompatibleStructureHash (content f0)) (name f0)
                          (map (fun f => (f, generateCompatibleStructureHash (content f)))
                             (g :: gs)) = None)
             by (apply object_loop_none_iff, Forall_map; exact H).
           congruence.
        -- split; [intros _; split; [exact Er|] | reflexivity].
           apply object_loop_none_iff, Forall_map in Eo. exact Eo.
Qed.

(** X6: whether the check passes depends only on the files' contents, never
    on their names (or ids and sizes). *)
Theorem validate_ignores_names (files files' : list JsonFile) :
  map content files = map content files' ->
  isValid (validateStructureConsistency files) = isValid (validateStructureConsistency files').
Proof.
  intros Hc. destruct files as [|f0 rest], files' as [|f0' rest']; try discriminate; [reflexivity|].
  injection Hc as H0 Hr.
  assert (Hiff : forall (Q : jv -> Prop),
            Forall (fun f => Q (content f)) rest <-> Forall (fun f => Q (content f)) rest').
  { intros Q. rewrite <- !(Forall_map content Q), Hr. reflexivity. }
  assert (Hs : array_structure f0 = array_structure f0') by (unfold array_structure; rewrite H0; reflexivity).
  destruct (isValid (validateStructureConsistency (f0 :: rest))) eqn:E1,
           (isValid (validateStructureConsistency (f0' :: rest'))) eqn:E2; try reflexivity.
  - apply validate_isValid_iff in E1 as [Hk Hb]. rewrite <- E2. symmetry.
    apply validate_isValid_iff. rewrite <- H0, <- Hs.
    split; [apply (Hiff (fun c => isArray c = isArray (content f0))); exact Hk|].
    destruct (isArray (content f0)).
    + apply (Hiff (fun c => array_structure (mkFile "" "" c 0) = None \/ array_structure f0 = None \/
                             array_structure (mkFile "" "" c 0) = array_structure f0)). exact Hb.
    + apply (Hiff (fun c => generateCompatibleStructureHash c
                             = generateCompatibleStructureHash (content f0))). exact Hb.
  - apply validate_isValid_iff in E2 as [Hk Hb]. rewrite <- E1.
    apply validate_isValid_iff. rewrite H0, Hs.
    split; [apply (Hiff (fun c => isArray c = isArray (content f0'))); exact Hk|].
    destruct (isArray (content f0')).
    + apply (Hiff (fun c => array_structure (mkFile "" "" c 0) = None \/ array_structure f0' = None \/
                             array_structure (mkFile "" "" c 0) = array_structure f0')). exact Hb.
    + apply (Hiff (fun c => generateCompatibleStructureHash c
                             = generateCompatibleStructureHash (content f0'))). exact Hb.
Qed.

Lemma validate_ignores_names_witness :
  let fs := [file "a.json" (JArr [JNum 1]); file "b.json" (JArr [JStr "x"])] in
  let fs' := [mkFile "id1" "x.json" (JArr [JNum 1]) 10; mkFile "id2" "y.json" (JArr [JStr "x"]) 20] in
  map content fs = map content fs' /\
  isValid (validateStructureConsistency fs) = isValid (validateStructureConsistency fs').
Proof.
  intros fs fs'. split; [reflexivity|]. exact (validate_ignores_names fs fs' eq_refl).
Defined.

(** X7: for array roots, the check passes exactly when the first file's
    array is empty, or every later non-empty array's first element has the
    same fingerprint as the first file's first element; the other elements
    are never looked at. *)
Theorem validate_arrays_iff (f0 : JsonFile) (rest : list JsonFile) :
  Forall (fun f => isArray (content f) = true) (f0 :: rest) ->
  isValid (validateStructureConsistency (f0 :: rest)) = true <->
  (forall f x xs y ys, In f rest -> content f = JArr (x :: xs) -> content f0 = JArr (y :: ys) ->
     generateCompatibleStructureHash x = generateCompatibleStructureHash y).
Proof.
  intros Hall. inversion Hall as [|? ? H0 Hrest]; subst.
  rewrite validate_isValid_iff, H0. split.
  - intros [_ Hb] f x xs y ys Hin Hf Hf0. rewrite Forall_forall in Hb.
    destruct (Hb f Hin) as [H|[H|H]]; unfold array_structure in H; rewrite ?Hf, ?Hf0 in H;
      try discriminate. injection H as H. exact H.
  - intros Hh. split.
    + eapply Forall_impl; [|exact Hrest]. intros f Hf. exact Hf.
    + apply Forall_forall. intros f Hin. unfold array_structure.
      destruct (content f) as [| | | | |[|x xs]|] eqn:Hf; try (left; reflexivity);
        rewrite Forall_forall in Hrest; try (specialize (Hrest f Hin); rewrite Hf in Hrest; discriminate).
      destruct (content f0) as [| | | | |[|y ys]|] eqn:Hf0; try discriminate.
      * right. left. reflexivity.
      * right. right. f_equal. exact (Hh f x xs y ys Hin Hf eq_refl).
Qed.

Lemma validate_arrays_iff_witness :
  let fs := [file "a.json" (JArr [JNum 1; JObj []]); file "b.json" (JArr []);
             file "c.json" (JArr [JNum 7; JStr "s"])] in
  Forall (fun f => isArray (content f) = true) fs /\
  isValid (validateStructureConsistency fs) = true.
Proof.
  intros fs. assert (H : Forall (fun f => isArray (content f) = true) fs) by (repeat constructor).
  split; [exact H|]. apply (validate_arrays_iff _ _ H).
  intros f x xs y ys Hin Hf Hf0. simpl in Hin.
  destruct Hin as [<-|[<-|[]]]; simpl in *; try discriminate.
  injection Hf as <- _. injection Hf0 as <- _. reflexivity.
Defined.

Lemma validate_error_nonempty (files : list JsonFile) :
  isValid (validateStructureConsistency files) = false ->
  exists msg, error (validateStructureConsistency files) = Some msg /\ msg <> "".
Proof.
  intros H. destruct files as [|f0 [|g gs]]; [eexists; split; [reflexivity|discriminate]| discriminate |].
  revert H. unfold validateStructureConsistency. cbv beta iota zeta.
  destruct (root_type_loop _ _ _) as [m|] eqn:Er.
  - intros _. exists m. split; [reflexivity|].
    revert Er. generalize (g :: gs). intros l. induction l as [|h l IH]; simpl; [discriminate|].
    destruct (Bool.eqb _ _); [exact IH|]. intros E. injection E as <-. discriminate.
  - destruct (isArray (content f0)).
    + destruct (array_loop _ _ _) as [m|] eqn:Ea; [|discriminate]. intros _.
      exists m. split; [reflexivity|]. revert Ea. generalize (map (fun f => (f, array_structure f)) (g :: gs)).
      intros l. induction l as [|[h [c|]] l IH]; simpl; [discriminate| |exact IH].
      destruct (array_structure f0); [|exact IH].
      destruct (String.eqb c s); [exact IH|]. intros E. injection E as <-. discriminate.
    + destruct (object_loop _ _ _) as [m|] eqn:Eo; [|discriminate]. intros _.
      exists m. split; [reflexivity|]. revert Eo.
      generalize (map (fun f => (f, generateCompatibleStructureHash (content f))) (g :: gs)).
      intros l. induction l as [|[h c] l IH]; simpl; [discriminate|].
      destruct (String.eqb _ _); [exact IH|]. intros E. injection E as <-. discriminate.
Qed.

(** X8: for a non-empty list of files, what the JsonMerger component reports
    to its parent is exactly [mergeJsonFiles files], whether the check passes
    or fails, and the merge button (shown only when the check passes) gives
    the same result; for no files it reports nothing and the button does
    nothing. *)
Theorem merger_reports_mergeJsonFiles (files : list JsonFile) :
  (files <> [] ->
   merger_reported files = Some (mergeJsonFiles files) /\
   (isValid (validateStructureConsistency files) = true ->
    merger_handleMergeClick files = Some (mergeJsonFiles files))) /\
  (files = [] -> merger_reported files = None /\ merger_handleMergeClick files = None).
Proof.
  split; [|intros ->; split; reflexivity].
  intros Hne. destruct files as [|f0 fs]; [congruence|].
  unfold merger_reported, merger_mergeResult, merger_handleMergeClick, merger_structureValidation.
  simpl length. cbv beta iota. rewrite orb_false_r, andb_true_r.
  destruct (isValid (validateStructureConsistency (f0 :: fs))) eqn:Ev.
  - split; reflexivity.
  - split; [|discriminate].
    destruct (validate_error_nonempty _ Ev) as [m [Hm Hne']].
    assert (Hmj : mergeJsonFiles (f0 :: fs) = mkMerge false None (Some m)).
    { unfold mergeJsonFiles. cbv beta iota zeta. rewrite Ev. simpl negb. cbv iota.
      rewrite Hm. reflexivity. }
    rewrite Hmj, Hm. simpl. unfold error_or_default.
    destruct (String.eqb m "") eqn:E; [apply String.eqb_eq in E; contradiction | reflexivity].
Qed.

(** ** Properties of [generateStructureHash] *)

Lemma string_compare_lt_trans (s1 s2 s3 : string) :
  String.compare s1 s2 = Lt -> String.compare s2 s3 = Lt -> String.compare s1 s3 = Lt.
Proof.
  revert s2 s3. induction s1 as [|a1 s1 IH]; intros [|a2 s2] [|a3 s3]; simpl;
    try discriminate; try reflexivity.
  destruct (Ascii.compare a1 a2) eqn:E12; try discriminate;
  destruct (Ascii.compare a2 a3) eqn:E23; try discriminate; intros H1 H2.
  - apply Ascii.compare_eq_iff in E12, E23. subst.
    unfold Ascii.compare. rewrite N.compare_refl. exact (IH _ _ H1 H2).
  - apply Ascii.compare_eq_iff in E12. subst. rewrite E23. reflexivity.
  - apply Ascii.compare_eq_iff in E23. subst. rewrite E12. reflexivity.
  - unfold Ascii.compare in *. apply N.compare_lt_iff in E12, E23.
    assert (E : N.compare (N_of_ascii a1) (N_of_ascii a3) = Lt)
      by (apply N.compare_lt_iff; eapply N.lt_trans; eassumption).
    rewrite E. reflexivity.
Qed.

Section SortByKey.
Variable A : Type.

Lemma key_lt_trans : forall p q r : string * A, key_lt p q -> key_lt q r -> key_lt p r.
Proof. intros p q r. apply string_compare_lt_trans. Qed.

Lemma insert_by_key_perm (p : string * A) (l : list (string * A)) :
  Permutation (insert_by_key p l) (p :: l).
Proof.
  induction l as [|q l IH]; simpl; [reflexivity|].
  destruct (String.compare (fst p) (fst q)); try reflexivity.
  rewrite IH. apply perm_swap.
Qed.

Lemma sort_by_key_perm (l : list (string * A)) : Permutation (sort_by_key l) l.
Proof.
  induction l as [|p l IH]; simpl; [reflexivity|].
  rewrite insert_by_key_perm, IH. reflexivity.
Qed.

Lemma insert_by_key_sorted (p : string * A) (l : list (string * A)) :
  Sorted key_lt l -> ~ In (fst p) (map fst l) -> Sorted key_lt (insert_by_key p l).
Proof.
  induction 1 as [|q l Hl IH Hhd]; simpl; intros Hp.
  - repeat constructor.
  - destruct (String.compare (fst p) (fst q)) eqn:E.
    + apply String.compare_eq_iff in E. exfalso. apply Hp. left. symmetry. exact E.
    + constructor; [constructor; assumption | constructor; exact E].
    + constructor; [apply IH; intros H; apply Hp; right; exact H|].
      assert (Hqp : key_lt q p) by (unfold key_lt; rewrite String.compare_antisym, E; reflexivity).
      destruct l as [|r l]; simpl; [constructor; exact Hqp|].
      destruct (String.compare (fst p) (fst r)); constructor; try exact Hqp.
      inversion Hhd. assumption.
Qed.

Lemma sort_by_key_sorted (l : list (string * A)) :
  NoDup (map fst l) -> Sorted key_lt (sort_by_key l).
Proof.
  induction l as [|p l IH]; simpl; intros Hnd; [constructor|].
  inversion Hnd as [|? ? Hp Hnd']; subst.
  apply insert_by_key_sorted; [exact (IH Hnd')|].
  intros H. apply Hp. apply (Permutation_in _ (Permutation_map fst (sort_by_key_perm l))). exact H.
Qed.

Lemma strongly_sorted_perm_eq (l1 l2 : list (string * A)) :
  StronglySorted key_lt l1 -> StronglySorted key_lt l2 -> Permutation l1 l2 -> l1 = l2.
Proof.
  revert l2. induction l1 as [|a l1 IH]; intros l2 H1 H2 Hp.
  - symmetry. apply Permutation_nil. exact Hp.
  - destruct l2 as [|b l2]; [apply Permutation_sym, Permutation_nil_cons in Hp; contradiction|].
    apply StronglySorted_inv in H1 as [H1 F1]. apply StronglySorted_inv in H2 as [H2 F2].
    assert (Hab : a = b).
    { destruct (Permutation_in a Hp (or_introl eq_refl)) as [|Ha]; [symmetry; assumption|].
      destruct (Permutation_in b (Permutation_sym Hp) (or_introl eq_refl)) as [|Hb]; [assumption|].
      rewrite Forall_forall in F1, F2.
      specialize (F1 b Hb). specialize (F2 a Ha). unfold key_lt in F1, F2.
      rewrite String.compare_antisym, F2 in F1. discriminate. }
    subst b. f_equal. apply IH; try assumption. exact (Permutation_cons_inv Hp).
Qed.

Lemma sort_by_key_perm_eq (l l' : list (string * A)) :
  Permutation l l' -> NoDup (map fst l) -> sort_by_key l = sort_by_key l'.
Proof.
  intros Hp Hnd.
  assert (Hnd' : NoDup (map fst l')) by (exact (Permutation_NoDup (Permutation_map fst Hp) Hnd)).
  apply strongly_sorted_perm_eq.
  - apply Sorted_StronglySorted; [exact key_lt_trans | apply sort_by_key_sorted; exact Hnd].
  - apply Sorted_StronglySorted; [exact key_lt_trans | apply sort_by_key_sorted; exact Hnd'].
  - rewrite !sort_by_key_perm. exact Hp.
Qed.
End SortByKey.

Lemma sort_by_key_map_snd {A B : Type} (h : A -> B) (l : list (string * A)) :
  sort_by_key (map (fun p => (fst p, h (snd p))) l)
  = map (fun p => (fst p, h (snd p))) (sort_by_key l).
Proof.
  induction l as [|p l IH]; simpl; [reflexivity|]. rewrite IH.
  generalize (sort_by_key l). intros s. induction s as [|q s IHs]; simpl; [reflexivity|].
  destruct (String.compare (fst p) (fst q)); simpl; try reflexivity. rewrite IHs. reflexivity.
Qed.

Lemma getStructure_obj (kvs : list (string * jv)) :
  getStructure (JObj kvs)
  = SArr [SStr "object";
          SArr (map (fun p => SArr [SStr (fst p); snd p])
                  (sort_by_key (map (fun p => (fst p, getStructure (snd p))) kvs)))].
Proof.
  simpl. do 5 f_equal. induction kvs as [|[k x] kvs IH]; simpl; [reflexivity|].
  f_equal. exact IH.
Qed.

Lemma normalize_object_props (l : list (string * st)) :
  normalizeStructure (SArr [SStr "object"; SArr (map (fun p => SArr [SStr (fst p); snd p]) l)])
  = SArr [SStr "object";
          SArr (map (fun p => normalize_field (SStr (fst p)) (normalizeStructure (snd p))) l)].
Proof.
  simpl. do 4 f_equal. induction l as [|[k s] l IH]; simpl; [reflexivity|].
  f_equal. exact IH.
Qed.

Lemma normalize_field_collapses (k : string) (v : jv) :
  collapses v = true ->
  normalize_field (SStr k) (normalizeStructure (getStructure v)) = SArr [SStr k; SStr "nullable-field"].
Proof.
  destruct v as [| |b|n|s|xs|kvs]; simpl; try discriminate; reflexivity.
Qed.

Lemma normalize_object_collapsed (kvs : list (string * jv)) :
  forallb (fun p => collapses (snd p)) kvs = true ->
  normalizeStructure (getStructure (JObj kvs))
  = SArr [SStr "object";
          SArr (map (fun k => SArr [SStr k; SStr "nullable-field"])
                  (map fst (sort_by_key (map (fun p => (fst p, tt)) kvs))))].
Proof.
  intros Hc. rewrite getStructure_obj, normalize_object_props.
  rewrite (sort_by_key_map_snd getStructure kvs), (sort_by_key_map_snd (fun _ => tt) kvs).
  rewrite !map_map. simpl. do 4 f_equal. apply map_ext_in. intros [k v] Hin. simpl.
  apply normalize_field_collapses.
  rewrite forallb_forall in Hc.
  exact (Hc (k, v) (Permutation_in _ (sort_by_key_perm _ kvs) Hin)).
Qed.

Lemma validate_json_isValid (parsed : parse_outcome) :
  isValid (fst (validateJsonString parsed)) = true <->
  exists v, parsed = ParseOk v /\ is_container v = true.
Proof.
  destruct parsed as [v|msg]; simpl.
  - destruct v; simpl; split; intros H; try discriminate; try (eexists; split; reflexivity);
      destruct H as [? [H1 H2]]; injection H1 as <-; discriminate.
  - split; [discriminate|]. intros [? [H _]]; discriminate.
Qed.

Lemma process_one_accepted (file : DroppedFile) (jf : JsonFile) :
  process_one file = inl jf ->
  ends_with (to_lower (fname file)) ".json" = true /\
  exists v, ftext file = ReadOk (ParseOk v) /\ is_container v = true /\
            jf = mkFile (sapp (fname file) (sapp "-" (fstamp file))) (fname file) v (fsize file).
Proof.
  unfold process_one. destruct (ends_with (to_lower (fname file)) ".json") eqn:E; simpl;
    [|discriminate].
  destruct (ftext file) as [m|parsed]; [discriminate|].
  destruct (isValid (fst (validateJsonString parsed))) eqn:V; simpl; [|discriminate].
  destruct parsed as [v|msg]; [|discriminate]. intros H. injection H as <-.
  split; [reflexivity|]. exists v. repeat split.
  apply validate_json_isValid in V. destruct V as [w [Hw Hc]]. injection Hw as <-. exact Hc.
Qed.

Lemma process_loop_split (files : list DroppedFile) (nf : list JsonFile) (errs : list FileUploadError) :
  exists nf' errs',
    process_loop files nf errs = ((nf ++ nf')%list, (errs ++ errs')%list) /\
    (length nf' + length errs')%nat = length files /\
    (forall jf, In jf nf' -> exists file, In file files /\ process_one file = inl jf).
Proof.
  revert nf errs. induction files as [|file rest IH]; intros nf errs; simpl.
  - exists [], []. rewrite !app_nil_r. repeat split. intros jf [].
  - destruct (process_one file) as [jf|e] eqn:P.
    + destruct (IH (nf ++ [jf])%list errs) as [nf' [errs' [H1 [H2 H3]]]].
      exists (jf :: nf'), errs'. rewrite H1, <- app_assoc. simpl. repeat split; [lia|].
      intros jf' [<-|Hin]; [exists file; split; [left|]; auto|].
      destruct (H3 jf' Hin) as [f' [Hf' Hp]]. exists f'. split; [right|]; auto.
    + destruct (IH nf (errs ++ [e])%list) as [nf' [errs' [H1 [H2 H3]]]].
      exists nf', (e :: errs'). rewrite H1, <- app_assoc. simpl. repeat split; [lia|].
      intros jf' Hin. destruct (H3 jf' Hin) as [f' [Hf' Hp]]. exists f'. split; [right|]; auto.
Qed.

Lemma merger_reports_mergeJsonFiles_witness :
  let files := [file "a.json" (JArr []); file "b.json" (JObj [])] in
  files <> [] /\
  ((files <> [] ->
    merger_reported files = Some (mergeJsonFiles files) /\
    (isValid (validateStructureConsistency files) = true ->
     merger_handleMergeClick files = Some (mergeJsonFiles files))) /\
   (files = [] -> merger_reported files = None /\ merger_handleMergeClick files = None)).
Proof. intros files. split; [discriminate | apply merger_reports_mergeJsonFiles]. Defined.

(** X9: key order: the structure hash of an object does not depend on the order
    of its (distinct) keys; [Object.keys(value).sort()] fixes it. *)
Theorem structureHash_key_order (kvs kvs' : list (string * jv)) :
  Permutation kvs kvs' -> NoDup (keys kvs) ->
  generateStructureHash (JObj kvs) = generateStructureHash (JObj kvs').
Proof.
  intros Hp Hnd. unfold generateStructureHash. rewrite !getStructure_obj.
  rewrite (sort_by_key_perm_eq _ _ _ (Permutation_map (fun p => (fst p, getStructure (snd p))) Hp));
    [reflexivity|].
  rewrite map_map. exact Hnd.
Qed.

Lemma structureHash_key_order_witness :
  Permutation [("b", JNum 1); ("a", JArr [JStr "x"])] [("a", JArr [JStr "x"]); ("b", JNum 1)] /\
  NoDup (keys [("b", JNum 1); ("a", JArr [JStr "x"])]) /\
  generateStructureHash (JObj [("b", JNum 1); ("a", JArr [JStr "x"])])
  = generateStructureHash (JObj [("a", JArr [JStr "x"]); ("b", JNum 1)]).
Proof.
  assert (Hp : Permutation [("b", JNum 1); ("a", JArr [JStr "x"])] [("a", JArr [JStr "x"]); ("b", JNum 1)])
    by apply perm_swap.
  assert (Hnd : NoDup (keys [("b", JNum 1); ("a", JArr [JStr "x"])])).
  { simpl. constructor; [simpl; intros [H|[]]; discriminate | constructor; [intros []|constructor]]. }
  split; [exact Hp | split; [exact Hnd | exact (structureHash_key_order _ _ Hp Hnd)]].
Defined.

(** X10: two objects with the same keys in the same order whose property
    values are all null, booleans, numbers, strings or objects get the same
    structure hash; only array-valued properties are told apart. *)
Theorem structureHash_collapsed_fields (kvs kvs' : list (string * jv)) :
  keys kvs = keys kvs' ->
  forallb (fun p => collapses (snd p)) kvs = true ->
  forallb (fun p => collapses (snd p)) kvs' = true ->
  generateStructureHash (JObj kvs) = generateStructureHash (JObj kvs').
Proof.
  intros Hk Hc Hc'. unfold generateStructureHash.
  rewrite (normalize_object_collapsed kvs Hc), (normalize_object_collapsed kvs' Hc').
  assert (E : map (fun p => (fst p, tt)) kvs = map (fun p => (fst p, tt)) kvs').
  { unfold keys in Hk. clear Hc Hc'. revert kvs' Hk. induction kvs as [|[k v] kvs IH]; intros [|[k' v'] kvs'] Hk;
      simpl in *; try discriminate; [reflexivity|].
    injection Hk as -> Hk. f_equal. apply IH; assumption. }
  rewrite E. reflexivity.
Qed.

Lemma structureHash_collapsed_fields_witness :
  keys [("a", JNum 1); ("b", JNull)] = keys [("a", JObj [("x", JArr [])]); ("b", JStr "s")] /\
  forallb (fun p => collapses (snd p)) [("a", JNum 1); ("b", JNull)] = true /\
  forallb (fun p => collapses (snd p)) [("a", JObj [("x", JArr [])]); ("b", JStr "s")] = true /\
  generateStructureHash (JObj [("a", JNum 1); ("b", JNull)])
  = generateStructureHash (JObj [("a", JObj [("x", JArr [])]); ("b", JStr "s")]).
Proof.
  refine (conj eq_refl (conj eq_refl (conj eq_refl _))).
  apply structureHash_collapsed_fields; reflexivity.
Defined.

(** X11: [validateJsonString] on a parsed value: it accepts exactly array and object
    roots, with their structure hash; null and primitive roots get the
    root-level message and no hash. *)
Theorem validateJsonString_roots (v : jv) :
  validateJsonString (ParseOk v)
  = if is_container v then (valid, Some (generateStructureHash v))
    else (invalid "JSON must be an object or array at root level", None).
Proof. destruct v; reflexivity. Qed.

(** X12: [processFiles] accepts a dropped file exactly when its lower-cased name ends
    in .json, its text is read and parses to an array or object root; the new
    entry has the id name-stamp, the name, the parsed content and the size. *)
Theorem process_one_accepts_iff (file : DroppedFile) (jf : JsonFile) :
  process_one file = inl jf <->
  ends_with (to_lower (fname file)) ".json" = true /\
  exists v, ftext file = ReadOk (ParseOk v) /\ is_container v = true /\
            jf = mkFile (sapp (fname file) (sapp "-" (fstamp file))) (fname file) v (fsize file).
Proof.
  split; [apply process_one_accepted|].
  intros [He [v [Ht [Hc ->]]]]. unfold process_one. rewrite He, Ht.
  destruct v; simpl in Hc; try discriminate; reflexivity.
Qed.

(** X13: the uploaded list stays clean: if every file in it has a .json name (any
    case) and an array or object root, so does every file after processFiles
    and after removeFile. *)
Theorem uploader_keeps_ok_files (uploaded : list JsonFile) (files : list DroppedFile) (fileId : string) :
  Forall (fun f => uploaded_ok f = true) uploaded ->
  Forall (fun f => uploaded_ok f = true) (updatedFiles (processFiles uploaded files)) /\
  Forall (fun f => uploaded_ok f = true) (removeFile uploaded fileId).
Proof.
  intros Hok. split.
  - unfold processFiles. destruct (process_loop_split files [] []) as [nf [errs [H1 [_ H3]]]].
    rewrite H1. simpl. apply Forall_app. split; [exact Hok|].
    apply Forall_forall. intros jf Hin. destruct (H3 jf Hin) as [file [_ Hp]].
    destruct (process_one_accepted file jf Hp) as [He [v [_ [Hc ->]]]].
    unfold uploaded_ok. simpl. rewrite He, Hc. reflexivity.
  - unfold removeFile. apply Forall_forall. intros f Hf. apply filter_In in Hf as [Hf _].
    rewrite Forall_forall in Hok. exact (Hok f Hf).
Qed.

Lemma uploader_keeps_ok_files_witness :
  Forall (fun f => uploaded_ok f = true) [file "A.JSON" (JObj [])] /\
  Forall (fun f => uploaded_ok f = true)
    (updatedFiles (processFiles [file "A.JSON" (JObj [])]
       [mkDropped "b.json" 2 (ReadOk (ParseOk JNull)) "1"; mkDropped "c.Json" 2 (ReadOk (ParseOk (JArr []))) "2"])) /\
  Forall (fun f => uploaded_ok f = true) (removeFile [file "A.JSON" (JObj [])] "A.JSON").
Proof.
  assert (H : Forall (fun f => uploaded_ok f = true) [file "A.JSON" (JObj [])])
    by (constructor; [reflexivity | constructor]).
  split; [exact H | apply uploader_keeps_ok_files; exact H].
Defined.

Lemma process_loop_flat (files : list DroppedFile) (nf : list JsonFile)
    (errs : list FileUploadError) :
  process_loop files nf errs
  = ((nf ++ accepted_files files)%list, (errs ++ rejected_files files)%list).
Proof.
  revert nf errs. induction files as [|f fs IH]; intros nf errs.
  - simpl. rewrite !app_nil_r. reflexivity.
  - cbn [process_loop]. unfold accepted_files, rejected_files. simpl flat_map.
    destruct (process_one f) as [jf|e]; rewrite IH; unfold accepted_files, rejected_files;
      rewrite <- !app_assoc; reflexivity.
Qed.

Lemma accepted_rejected_length (files : list DroppedFile) :
  (length (accepted_files files) + length (rejected_files files))%nat = length files.
Proof.
  induction files as [|f fs IH]; [reflexivity|].
  unfold accepted_files, rejected_files in *. simpl flat_map.
  destruct (process_one f); simpl; lia.
Qed.

(** X14: [processFiles] only appends: the new list is the old one followed by
    the files that [process_one] accepts, in drop order; the errors passed to
    onError are the ones it reports for the other files, in drop order, and
    onError is called exactly when there is one; every dropped file is either
    accepted or reported once. *)
Theorem processFiles_accounting (uploaded : list JsonFile) (files : list DroppedFile) :
  updatedFiles (processFiles uploaded files) = (uploaded ++ accepted_files files)%list /\
  reportedErrors (processFiles uploaded files)
  = (match rejected_files files with [] => None | errs => Some errs end) /\
  (length (accepted_files files) + length (rejected_files files))%nat = length files.
Proof.
  unfold processFiles. rewrite process_loop_flat. simpl. split; [reflexivity|]. split.
  - destruct (rejected_files files); reflexivity.
  - apply accepted_rejected_length.
Qed.
